(** * marginaleffects: the model adapter (model_abstract.py)

    A shallow embedding of [ModelAbstract] and [ModelStatsmodels]:
    construction-time validation, covariance selection, variable-name
    resolution and the reshaping of predictions into a long table.

    Python values are embedded as inductive types, exceptions and
    [warnings.warn] through a small state-and-error monad whose state is
    the list of warnings emitted so far.  numpy, polars and patsy are
    libraries the module calls; the few operations used are modelled
    next to the code that calls them. *)

From Stdlib Require Import ZArith Lia List Ascii String DecimalString DecimalNat Floats.
From stdpp Require Import base list strings gmap.

Open Scope string_scope.
Open Scope list_scope.

(** ** Exceptions and warnings *)

Inductive exn :=
  | ValueError (msg : string)
  | TypeError (msg : string)
  | IndexError (msg : string)
  | ShapeError (msg : string)          (* polars.exceptions.ShapeError *)
  | ComputeError (msg : string)        (* polars.exceptions.ComputeError *)
  | ColumnNotFoundError (msg : string) (* polars.exceptions.ColumnNotFoundError *)
  | PanicException (msg : string)      (* pyo3_runtime.PanicException: polars panicked *)
  | ConversionError (msg : string)     (* what pl.from_pandas raises, from pyarrow or polars *)
  | ExternalError (msg : string).      (* raised inside patsy or the fitted model *)

Inductive result (A : Type) :=
  | Return (a : A)
  | Raise (e : exn).
Arguments Return {A} a.
Arguments Raise {A} e.

(** A computation reads and extends the log of emitted warnings. *)
Definition M (A : Type) : Type := list string -> result A * list string.

Definition ret {A} (a : A) : M A := fun w => (Return a, w).
Definition raise {A} (e : exn) : M A := fun w => (Raise e, w).
Definition bind {A B} (m : M A) (k : A -> M B) : M B :=
  fun w => match m w with
           | (Return a, w') => k a w'
           | (Raise e, w') => (Raise e, w')
           end.
Definition warn (msg : string) : M unit := fun w => (Return tt, w ++ [msg]).
Definition lift {A} (r : result A) : M A := fun w => (r, w).

Declare Scope py_scope.
Delimit Scope py_scope with py.
Notation "'let*' x ':=' m 'in' k" := (bind m (fun x => k))
  (at level 10, x name, m at level 100, k at level 200) : py_scope.
Notation "'do' m 'then' k" := (bind m (fun _ => k))
  (at level 10, m at level 100, k at level 200) : py_scope.
Open Scope py_scope.

Definition raised {A} (r : result A) : Prop :=
  match r with Raise _ => True | Return _ => False end.

(** ** Strings *)

(** [str(i)] for a non-negative Python int. *)
Definition str (i : nat) : string := NilEmpty.string_of_uint (Nat.to_uint i).

(** [sep.join(l)] *)
Definition join (sep : string) (l : list string) : string := String.concat sep l.

Definition newline : ascii := ascii_of_nat 10.
Definition dquote : string := String (ascii_of_nat 34) EmptyString.

(** [s] occurs inside [t]. *)
Definition mentions (t s : string) : Prop := exists pre post, t = pre +:+ s +:+ post.

(** *** [re.sub("\[.*\]", "", x)]

    The pattern is an opening bracket, then greedily any characters
    other than a newline, then a closing bracket.  [match_len r] is the
    length of the longest prefix of [r] matching [.*\]]: it ends at the
    last closing bracket on the current line. *)
Fixpoint match_len (r : string) : option nat :=
  match r with
  | EmptyString => None
  | String c r' =>
      if Ascii.eqb c newline then None
      else match match_len r' with
           | Some m => Some (S m)
           | None => if Ascii.eqb c "]"%char then Some 1 else None
           end
  end.

(** Scan left to right; [skip] counts the characters of the current
    match still to be deleted. *)
Fixpoint re_sub_from (skip : nat) (s : string) : string :=
  match s with
  | EmptyString => EmptyString
  | String c r =>
      match skip with
      | S k => re_sub_from k r
      | O =>
          if Ascii.eqb c "["%char then
            match match_len r with
            | Some m => re_sub_from m r
            | None => String c (re_sub_from 0 r)
            end
          else String c (re_sub_from 0 r)
      end
  end.

Definition re_sub_brackets (x : string) : string := re_sub_from 0 x.

(** ** numpy arrays *)

(** What a zero-dimensional array holds. *)
Inductive scalar :=
  | ScNone
  | ScBool (b : bool)
  | ScInt (z : Z)
  | ScFloat (x : float)
  | ScStr (s : string)
  | ScObj.

(** An [np.ndarray], by rank.  A rank-2 array is its shape and its
    indexing function; ranks above two keep their shape only. *)
Inductive ndarray :=
  | Nd0 (x : scalar)
  | Nd1 (v : list float)
  | Nd2 (n k : nat) (entry : nat -> nat -> float)
  | NdN (d1 d2 d3 : nat) (rest : list nat).

Definition shape (a : ndarray) : list nat :=
  match a with
  | Nd0 _ => []
  | Nd1 v => [length v]
  | Nd2 n k _ => [n; k]
  | NdN d1 d2 d3 rest => d1 :: d2 :: d3 :: rest
  end.

Definition ndim (a : ndarray) : nat := length (shape a).

(** [len(a)] *)
Definition len (a : ndarray) : result nat :=
  match shape a with
  | [] => Raise (TypeError "len() of unsized object")
  | d :: _ => Return d
  end.

(** [a.shape[0]] *)
Definition shape0 (a : ndarray) : result nat :=
  match shape a with
  | [] => Raise (IndexError "tuple index out of range")
  | d :: _ => Return d
  end.

(** ** polars tables *)

Inductive dtype := Int32 | Int64 | Float64 | Utf8 | Null.

Inductive cell :=
  | CInt (z : Z)
  | CFloat (x : float)
  | CStr (s : string).

Record Series := mkSeries { dt : dtype; vals : list cell }.

(** A table is its named columns, in order. *)
Definition DataFrame := list (string * Series).

Definition columns (df : DataFrame) : list string := map fst df.

Definition height (df : DataFrame) : nat :=
  match df with
  | [] => 0
  | (_, s) :: _ => length (vals s)
  end.

Fixpoint get_column (df : DataFrame) (name : string) : option Series :=
  match df with
  | [] => None
  | (nm, s) :: rest => if decide (nm = name) then Some s else get_column rest name
  end.

(** [range(n)] *)
Definition range (n : nat) : list Z := map Z.of_nat (seq 0 n).

Definition int32_min : Z := - 2 ^ 31.
Definition int32_max : Z := 2 ^ 31 - 1.

Definition fits_int32 (c : cell) : bool :=
  match c with
  | CInt z => (int32_min <=? z)%Z && (z <=? int32_max)%Z
  | _ => false
  end.

(** [s.cast(pl.Int32)], strict as polars casts are by default: a value
    that does not fit fails the cast. *)
Definition cast_int32 (s : Series) : result Series :=
  if forallb fits_int32 (vals s)
  then Return (mkSeries Int32 (vals s))
  else Raise (ComputeError "strict conversion to Int32 failed").

(** [pl.Series(range(n), dtype=pl.Int32)] *)
Definition series_range_int32 (n : nat) : result Series :=
  cast_int32 (mkSeries Int64 (map CInt (range n))).

(** [pl.DataFrame(p)] for a rank-2 array: one Float64 column per array
    column, named [column_0], [column_1], ... *)
Definition frame_of_array (n k : nat) (entry : nat -> nat -> float) : DataFrame :=
  map (fun j => ("column_" +:+ str j,
                 mkSeries Float64 (map (fun i => CFloat (entry i j)) (seq 0 n))))
      (seq 0 k).

(** [df.rename(mapping)]: every column named by a key takes the key's
    value as its new name. *)
Definition rename (mapping : gmap string string) (df : DataFrame) : DataFrame :=
  map (fun c => (default (fst c) (mapping !! fst c), snd c)) df.

(** [df.with_columns(s.alias(name))]: replaces the column of that name,
    or appends a new last column; the column must be as long as the
    table is high, unless the table has no column yet. *)
Fixpoint put_column (df : DataFrame) (name : string) (s : Series) : DataFrame :=
  match df with
  | [] => [(name, s)]
  | (nm, s') :: rest =>
      if decide (nm = name) then (name, s) :: rest
      else (nm, s') :: put_column rest name s
  end.

Definition with_columns (df : DataFrame) (name : string) (s : Series) : result DataFrame :=
  match df with
  | [] => Return [(name, s)]
  | _ :: _ =>
      if decide (length (vals s) = height df)
      then Return (put_column df name s)
      else Raise (ShapeError "unable to add a column of a different length")
  end.

(** [df.melt(id_vars=id, variable_name=var, value_name=val)]: every
    column other than [id] is a value column.  The long table lists the
    value columns one after the other: for each, the [id] column again,
    the value column's name on every row, and its values.  With no
    value column at all polars does not return: it panics. *)
Definition melt (df : DataFrame) (id var val : string) : result DataFrame :=
  match get_column df id with
  | None => Raise (ColumnNotFoundError id)
  | Some ids =>
      match filter (fun c => fst c <> id) df with
      | [] => Raise (PanicException "melt: no value column")
      | (first :: _) as value_cols =>
          Return
            [ (id, mkSeries (dt ids) (concat (map (fun _ => vals ids) value_cols)));
              (var, mkSeries Utf8
                      (concat (map (fun c => repeat (CStr (fst c)) (length (vals (snd c))))
                                   value_cols)));
              (val, mkSeries (dt (snd first))
                      (concat (map (fun c => vals (snd c)) value_cols))) ]
      end
  end.

(** [pl.DataFrame({"rowid": range(n), "estimate": p})]: the two columns
    must have one length. *)
Definition frame_of_rowid_estimate (n : nat) (p : list float) : result DataFrame :=
  if decide (n = length p)
  then Return [ ("rowid", mkSeries Int64 (map CInt (range n)));
                ("estimate", mkSeries Float64 (map CFloat p)) ]
  else Raise (ShapeError "could not create a new DataFrame: series have different lengths").

(** [p.with_columns(pl.col("rowid").cast(pl.Int32))] *)
Definition cast_rowid (df : DataFrame) : result DataFrame :=
  match get_column df "rowid" with
  | None => Raise (ColumnNotFoundError "rowid")
  | Some s =>
      match cast_int32 s with
      | Return s' => with_columns df "rowid" s'
      | Raise e => Raise e
      end
  end.

(** The rows of a long prediction table, read across its columns. *)
Definition cell_at (s : option Series) (i : nat) : option cell :=
  match s with
  | Some s => vals s !! i
  | None => None
  end.

Definition row_at (df : DataFrame) (i : nat) : option cell * option cell * option cell :=
  (cell_at (get_column df "rowid") i,
   cell_at (get_column df "group") i,
   cell_at (get_column df "estimate") i).

(** ** Python values handed over by the fitted model *)

Inductive pyval :=
  | PyNone
  | PyBool (b : bool)
  | PyInt (z : Z)
  | PyStr (s : string)
  | PyArray (a : ndarray)
  | PyPandasSeries (v : list float)
  | PyPandas (df : DataFrame)     (* a pandas.DataFrame *)
  | PyPolars (df : DataFrame)     (* a pl.DataFrame *)
  | PyObj.                        (* any other object *)

Definition float_of_Z (z : Z) : float :=
  if (z <? 0)%Z then PrimFloat.opp (PrimFloat.of_uint63 (Uint63.of_Z (- z)))
  else PrimFloat.of_uint63 (Uint63.of_Z z).

(** A table cell as an array entry; [nan] stands for a cell that holds
    no number. *)
Definition float_of_cell (c : option cell) : float :=
  match c with
  | Some (CFloat x) => x
  | Some (CInt z) => float_of_Z z
  | _ => nan
  end.

(** [np.array(v)]: arrays, series and tables keep their shape, anything
    else becomes a zero-dimensional array holding the object. *)
Definition np_array (v : pyval) : ndarray :=
  match v with
  | PyArray a => a
  | PyPandasSeries l => Nd1 l
  | PyPandas df | PyPolars df =>
      Nd2 (height df) (length df)
          (fun i j => float_of_cell (cell_at (snd <$> df !! j) i))
  | PyNone => Nd0 ScNone
  | PyBool b => Nd0 (ScBool b)
  | PyInt z => Nd0 (ScInt z)
  | PyStr s => Nd0 (ScStr s)
  | PyObj => Nd0 ScObj
  end.

(** ** The capability contract: [ModelAbstract] *)

(** The [vcov] argument. *)
Inductive selector :=
  | SelBool (b : bool)
  | SelStr (s : string)
  | SelOther.

(** The methods a backend has to provide and the base class calls. *)
Class ModelAbstract (model : Type) := {
  get_coef : model -> M pyval;
  get_modeldata : model -> M pyval;
  get_response_name : model -> M pyval;
  get_formula : model -> M pyval;
  get_vcov_raw : model -> selector -> M pyval
}.

(** The object [__init__] leaves behind: the wrapped model and the four
    validated fields. *)
Record adapter (model : Type) := mkAdapter {
  a_model : model;
  coef : ndarray;
  modeldata : DataFrame;
  response_name : string;
  formula : string
}.
Arguments mkAdapter {model}.
Arguments a_model {model}.
Arguments coef {model}.
Arguments modeldata {model}.
Arguments response_name {model}.
Arguments formula {model}.

Section Contract.
Context {model : Type} `{ModelAbstract model}.

Definition validate_coef (m : model) : M ndarray :=
  let* c := get_coef m in
  match c with
  | PyArray a => ret a
  | _ => raise (ValueError "coef must be a numpy array")
  end.

Definition validate_modeldata (m : model) : M DataFrame :=
  let* d := get_modeldata m in
  match d with
  | PyPolars df => ret df
  | _ => raise (ValueError "modeldata must be a Polars DataFrame")
  end.

Definition validate_response_name (m : model) : M string :=
  let* r := get_response_name m in
  match r with
  | PyStr s => ret s
  | _ => raise (ValueError "response_name must be a string")
  end.

Definition validate_formula (m : model) : M string :=
  let* f := get_formula m in
  match f with
  | PyStr s => ret s
  | _ => raise (ValueError "formula must be a string")
  end.

(** [ModelAbstract.__init__] *)
Definition init (m : model) : M (adapter model) :=
  let* c := validate_coef m in
  let* d := validate_modeldata m in
  let* r := validate_response_name m in
  let* f := validate_formula m in
  ret (mkAdapter m c d r f).

(** [ModelAbstract.get_vcov] *)
Definition get_vcov (self : adapter model) (vcov : selector) : M ndarray :=
  let* v := get_vcov_raw (a_model self) vcov in
  match v with
  | PyArray a =>
      let* k := lift (len (coef self)) in
      if decide (shape a = [k; k]) then ret a
      else raise (ValueError
        "vcov must be a square numpy array with dimensions equal to the length of self.coef")
  | _ => raise (ValueError "vcov must be a numpy array")
  end.
End Contract.

(** ** The statsmodels backend: [ModelStatsmodels] *)

(** [results.model]: the fields and the prediction function the adapter
    reads.  [sm_predict params exog] is [model.predict(params, exog)]. *)
Record sm_model := mkSmModel {
  data_frame : pyval;
  endog_names : pyval;
  exog_names : list string;
  sm_formula : pyval;
  sm_predict : ndarray -> ndarray -> result ndarray
}.

(** A fitted results object: [params], the value [cov_params()] returns,
    its other attributes by name, and [model]. *)
Record sm_results := mkSmResults {
  params : pyval;
  cov_params : pyval;
  attributes : gmap string pyval;
  model_of : sm_model
}.

(** [getattr(results, name)] for the names [get_vcov_raw] can ask for:
    they all start with [cov_], and [cov_params] is a bound method. *)
Definition sm_getattr (r : sm_results) (name : string) : option pyval :=
  if decide (name = "cov_params") then Some PyObj else attributes r !! name.

(** A column that holds text next to numbers: a pandas column of
    dtype [object] that pyarrow cannot give one type. *)
Definition is_text (c : cell) : bool :=
  match c with CStr _ => true | _ => false end.
Definition mixed (s : Series) : bool :=
  existsb is_text (vals s) && existsb (fun c => negb (is_text c)) (vals s).

(** The pandas tables [pl.from_pandas] converts: no column name occurs
    twice and no column mixes text with numbers. *)
Definition convertible (df : DataFrame) : bool :=
  bool_decide (NoDup (columns df)) && forallb (fun c => negb (mixed (snd c))) df.

(** [pl.from_pandas(df)]: a pandas table goes through pyarrow into a
    polars table, which fails on a table that is not [convertible]. *)
Definition from_pandas (v : pyval) : result pyval :=
  match v with
  | PyPandas df =>
      if convertible df then Return (PyPolars df)
      else Raise (ConversionError "pandas table cannot be converted")
  | PyPandasSeries l => Return PyObj   (* a pl.Series *)
  | _ => Raise (TypeError "Expected pandas DataFrame or Series")
  end.

Definition sm_get_coef (r : sm_results) : M pyval :=
  ret (PyArray (np_array (params r))).

Definition sm_get_modeldata (r : sm_results) : M pyval :=
  match data_frame (model_of r) with
  | PyPolars df => ret (PyPolars df)
  | df => lift (from_pandas df)
  end.

Definition sm_get_response_name (r : sm_results) : M pyval :=
  ret (endog_names (model_of r)).

Definition sm_get_formula (r : sm_results) : M pyval :=
  ret (sm_formula (model_of r)).

Definition vcov_type_message : string :=
  "`vcov` must be a boolean or a string like " +:+ dquote +:+ "HC3" +:+ dquote +:+
  ", which corresponds to an attribute of the model object such as " +:+
  dquote +:+ "vcov_HC3" +:+ dquote +:+ ".".

Definition sm_get_vcov_raw (r : sm_results) (vcov : selector) : M pyval :=
  let* V :=
    match vcov with
    | SelBool true => ret (cov_params r)
    | SelBool false => ret PyNone
    | SelStr s =>
        let lab := "cov_" +:+ s in
        match sm_getattr r lab with
        | Some V => ret V
        | None => raise (ValueError ("The model object has no " +:+ lab +:+ " attribute."))
        end
    | SelOther => raise (ValueError vcov_type_message)
    end in
  ret (PyArray (np_array V)).

#[export] Instance ModelStatsmodels : ModelAbstract sm_results := {
  get_coef := sm_get_coef;
  get_modeldata := sm_get_modeldata;
  get_response_name := sm_get_response_name;
  get_formula := sm_get_formula;
  get_vcov_raw := sm_get_vcov_raw
}.

(** *** Variable names *)

(** An element of a list passed as [variables]: a [str] or not. *)
Inductive pyelem :=
  | EStr (s : string)
  | EOther.

Definition is_str (e : pyelem) : bool :=
  match e with EStr _ => true | EOther => false end.

Definition strs (l : list pyelem) : list string :=
  omap (fun e => match e with EStr s => Some s | EOther => None end) l.

(** The [variables] argument.  A mapping goes from variable names to
    what to do with the variable, in insertion order. *)
Inductive variables_arg :=
  | VarNone
  | VarStr (s : string)
  | VarDict (d : list (string * pyval))
  | VarList (l : list pyelem)
  | VarOther.

(** What [get_variables_names] hands back: a list of names, or the
    mapping it was given. *)
Inductive variables_res :=
  | ResList (l : list string)
  | ResDict (d : list (string * pyval)).

(** The names a result iterates over: the list, or the mapping's keys. *)
Definition names_of (v : variables_res) : list string :=
  match v with
  | ResList l => l
  | ResDict d => map fst d
  end.

(** [x in l] *)
Definition isin (x : string) (l : list string) : bool := bool_decide (x ∈ l).

(** Duplicates removed, each name kept where it is first seen. *)
Fixpoint unique_from (seen l : list string) : list string :=
  match l with
  | [] => []
  | x :: r => if isin x seen then unique_from seen r else x :: unique_from (x :: seen) r
  end.
Definition unique_stable (l : list string) : list string := unique_from [] l.

(** What polars promises of [pl.Series(l).unique().to_list()]: no
    duplicates and the same elements.  Their order is left open, as
    [unique] is called without [maintain_order]. *)
Definition unique_contract (unique : list string -> list string) : Prop :=
  forall l, NoDup (unique l) /\ (forall x, x ∈ unique l <-> x ∈ l).

Definition variables_type_message : string :=
  "`variables` must be None, a dict, string, or list of strings".
Definition no_valid_column_message : string :=
  "There is no valid column name in `variables`.".

Section Statsmodels.
(** [pl.Series(l).unique().to_list()] *)
Variable unique : list string -> list string.
(** [patsy.dmatrices(formula, data)]: the response and the design matrix. *)
Variable dmatrices : pyval -> DataFrame -> result (ndarray * ndarray).

(** The names inferred when [variables is None]. *)
Definition inferred_names (r : sm_results) (newdata : DataFrame) : list string :=
  let variables := exog_names (model_of r) in
  let variables := map re_sub_brackets variables in
  let variables := List.filter (fun x => isin x (columns newdata)) variables in
  unique variables.

Definition get_variables_names (self : adapter sm_results)
    (variables : variables_arg) (newdata : DataFrame) : M variables_res :=
  let variables :=
    match variables with
    | VarNone => VarList (map EStr (inferred_names (a_model self) newdata))
    | v => v
    end in
  let* variables :=
    match variables with
    | VarStr s => ret (ResList [s])
    | VarDict d => ret (ResDict d)
    | VarList l =>
        if forallb is_str l then ret (ResList (strs l))
        else raise (ValueError variables_type_message)
    | _ => raise (ValueError variables_type_message)
    end in
  let good := List.filter (fun x => isin x (columns newdata)) (names_of variables) in
  let bad := List.filter (fun x => negb (isin x (columns newdata))) (names_of variables) in
  do (if (0 <? length bad)%nat
      then warn ("Variable(s) not in newdata: " +:+ join ", " bad)
      else ret tt) then
  if (length good =? 0)%nat
  then raise (ValueError no_valid_column_message)
  else ret variables.

(** *** Predictions *)

(** The [newdata] argument: a raw design matrix or a table. *)
Inductive newdata_arg :=
  | NewArray (a : ndarray)
  | NewFrame (df : DataFrame).

(** [newdata.shape[0]] *)
Definition newdata_rows (newdata : newdata_arg) : result nat :=
  match newdata with
  | NewArray a => shape0 a
  | NewFrame df => Return (height df)
  end.

(** [{f"column_{i}": str(i) for i in range(k)}] *)
Definition colnames (k : nat) : gmap string string :=
  list_to_map (map (fun i => ("column_" +:+ str i, str i)) (seq 0 k)).

Definition predict_rank_message : string :=
  "The `predict()` method must return an array with 1 or 2 dimensions.".

Definition get_predict (self : adapter sm_results)
    (params : ndarray) (newdata : newdata_arg) : M DataFrame :=
  let* exog :=
    match newdata with
    | NewArray a => ret a
    | NewFrame df =>
        let* yx := lift (dmatrices (sm_formula (model_of (a_model self))) df) in
        ret (snd yx)
    end in
  let* p := lift (sm_predict (model_of (a_model self)) params exog) in
  let* p :=
    match p with
    | Nd1 v =>
        let* n := lift (newdata_rows newdata) in
        lift (frame_of_rowid_estimate n v)
    | Nd2 n k entry =>
        let df := rename (colnames k) (frame_of_array n k entry) in
        let* rowid := lift (series_range_int32 n) in
        let* df := lift (with_columns df "rowid" rowid) in
        lift (melt df "rowid" "group" "estimate")
    | _ => raise (ValueError predict_rank_message)
    end in
  lift (cast_rowid p).
End Statsmodels.

(** ** Auxiliary definitions for the statements *)

(** A backend given by its methods, for statements about every backend. *)
Record methods := mkMethods {
  m_coef : M pyval;
  m_modeldata : M pyval;
  m_response_name : M pyval;
  m_formula : M pyval;
  m_vcov_raw : selector -> M pyval
}.

#[export] Instance ModelMethods : ModelAbstract methods := {
  get_coef := m_coef;
  get_modeldata := m_modeldata;
  get_response_name := m_response_name;
  get_formula := m_formula;
  get_vcov_raw := m_vcov_raw
}.

(** The names of a request that is a string, a mapping or a list of
    strings. *)
Definition requested_names (v : variables_arg) : option (list string) :=
  match v with
  | VarStr s => Some [s]
  | VarDict d => Some (map fst d)
  | VarList l => if forallb is_str l then Some (strs l) else None
  | _ => None
  end.

(** Such a request as [get_variables_names] carries it on. *)
Definition normalized (v : variables_arg) : variables_res :=
  match v with
  | VarStr s => ResList [s]
  | VarDict d => ResDict d
  | VarList l => ResList (strs l)
  | _ => ResList []
  end.

Definition present (cols names : list string) : list string :=
  List.filter (fun x => isin x cols) names.
Definition absent (cols names : list string) : list string :=
  List.filter (fun x => negb (isin x cols)) names.

(** The array the backend's prediction function returns inside
    [get_predict]. *)
Definition backend_output (dmatrices : pyval -> DataFrame -> result (ndarray * ndarray))
    (self : adapter sm_results) (params : ndarray) (newdata : newdata_arg) : result ndarray :=
  match newdata with
  | NewArray a => sm_predict (model_of (a_model self)) params a
  | NewFrame df =>
      match dmatrices (sm_formula (model_of (a_model self))) df with
      | Return yx => sm_predict (model_of (a_model self)) params (snd yx)
      | Raise e => Raise e
      end
  end.

(** The labels in the [group] column. *)
Definition group_labels (df : DataFrame) : list string :=
  match get_column df "group" with
  | Some s => omap (fun c => match c with CStr g => Some g | _ => None end) (vals s)
  | None => []
  end.

(** The number of rows of a table all of whose columns have one length. *)
Definition rows (df : DataFrame) (n : nat) : Prop :=
  Forall (fun c => length (vals (snd c)) = n) df.

(** The part of [get_variables_names] after normalisation: warn about
    the absent names, refuse an empty selection, and hand back the
    request itself. *)
Definition checked (cols : list string) (v : variables_res) (w : list string)
  : result variables_res * list string :=
  (match present cols (names_of v) with
   | [] => Raise (ValueError no_valid_column_message)
   | _ :: _ => Return v
   end,
   match absent cols (names_of v) with
   | [] => w
   | bad => w ++ ["Variable(s) not in newdata: " +:+ join ", " bad]
   end).

(** After [rename], column [j] is called [str j]. *)
Definition wide (n k : nat) (entry : nat -> nat -> float) : DataFrame :=
  map (fun j => (str j, mkSeries Float64 (map (fun i => CFloat (entry i j)) (seq 0 n))))
      (seq 0 k).
(** The long table [get_predict] builds from an n x k matrix: the row
    numbers k times over, each column label n times, and the matrix
    column by column. *)
Definition long_table (n k : nat) (entry : nat -> nat -> float) : DataFrame :=
  [ ("rowid", mkSeries Int32 (concat (repeat (map CInt (range n)) k)));
    ("group", mkSeries Utf8 (concat (map (fun j => repeat (CStr (str j)) n) (seq 0 k))));
    ("estimate",
     mkSeries (match k with O => Null | S _ => Float64 end)
       (concat (map (fun j => map (fun i => CFloat (entry i j)) (seq 0 n)) (seq 0 k)))) ].

(** The table it builds from a vector of estimates. *)
Definition short_table (v : list float) : DataFrame :=
  [ ("rowid", mkSeries Int32 (map CInt (range (length v))));
    ("estimate", mkSeries Float64 (map CFloat v)) ].

(** *** Example objects *)

Definition guerry : DataFrame :=
  [ ("x1", mkSeries Float64 [CFloat 1; CFloat 2]);
    ("x2", mkSeries Float64 [CFloat 3; CFloat 5]);
    ("y", mkSeries Float64 [CFloat 0; CFloat 1]) ].

(** A fitted model with two coefficients whose prediction function
    returns [p] whatever it is given. *)
Definition fitted (p : ndarray) : sm_results :=
  mkSmResults
    (PyPandasSeries [1; 2]%float)
    (PyArray (Nd2 2 2 (fun i j => if decide (i = j) then 1%float else 0%float)))
    {[ "cov_HC1" := PyArray (Nd2 2 2 (fun _ _ => 0%float)) ]}
    (mkSmModel (PyPolars guerry) (PyStr "y") ["x1"; "x2"] (PyStr "y ~ x1 + x2")
       (fun _ _ => Return p)).

(** The adapter [__init__] builds around it. *)
Definition fitted_adapter (p : ndarray) : adapter sm_results :=
  mkAdapter (fitted p) (Nd1 [1; 2]%float) guerry "y" "y ~ x1 + x2".

(** A design-matrix builder: a column of ones and the table's columns. *)
Definition design (f : pyval) (df : DataFrame) : result (ndarray * ndarray) :=
  Return (Nd1 (repeat 0%float (height df)),
          Nd2 (height df) (S (length df))
              (fun i j => match j with
                          | O => 1%float
                          | S j' => float_of_cell (cell_at (snd <$> df !! j') i)
                          end)).

(** A fitted model whose [params] is a 2 x 2 table, as the parameters of
    a multinomial model are. *)
Definition fitted_square : sm_results :=
  mkSmResults
    (PyPandas [ ("a", mkSeries Float64 [CFloat 1; CFloat 2]);
                ("b", mkSeries Float64 [CFloat 3; CFloat 4]) ])
    PyNone ∅
    (mkSmModel (PyPolars guerry) (PyStr "y") ["x1"; "x2"] (PyStr "y ~ x1 + x2")
       (fun _ _ => Return (Nd1 []))).

(** A backend whose [get_coef] returns a list-like object that is not
    an array, and whose other getters would each leave a warning. *)
Definition listy : methods :=
  mkMethods (ret PyObj)
            (do warn "get_modeldata ran" then ret (PyPolars guerry))
            (do warn "get_response_name ran" then ret (PyStr "y"))
            (do warn "get_formula ran" then ret (PyStr "y ~ x1"))
            (fun _ => ret PyNone).

(** A 2 x 3 and a 0 x 2 prediction matrix. *)
Definition probs23 : ndarray :=
  Nd2 2 3 (fun i j => PrimFloat.of_uint63 (Uint63.of_Z (Z.of_nat (10 * i + j)))).
Definition probs02 : ndarray := Nd2 0 2 (fun _ _ => 0%float).
(** A matrix of two rows and no column. *)
Definition probs20 : ndarray := Nd2 2 0 (fun _ _ => 0%float).

(** ** Auxiliary definitions for further properties *)

(** The character [c] occurs in [s]. *)
Fixpoint occurs (c : ascii) (s : string) : bool :=
  match s with
  | EmptyString => false
  | String c' r => Ascii.eqb c' c || occurs c r
  end.

(** Somewhere in [s] the pattern [\[.*\]] matches: an opening bracket
    with a closing bracket after it on the same line. *)
Fixpoint matchable (s : string) : bool :=
  match s with
  | EmptyString => false
  | String c r =>
      (Ascii.eqb c "["%char && bool_decide (is_Some (match_len r))) || matchable r
  end.

(** A returned selection, passed as the [variables] of a further call. *)
Definition as_request (res : variables_res) : variables_arg :=
  match res with
  | ResList l => VarList (map EStr l)
  | ResDict d => VarDict d
  end.

(** The warning about the names [bad], added to the log when there are
    any. *)
Definition warned (w : list string) (bad : list string) : list string :=
  match bad with
  | [] => w
  | _ :: _ => w ++ ["Variable(s) not in newdata: " +:+ join ", " bad]
  end.

(** * Properties *)

(** ** Construction *)

Section ContractFacts.
Context {model : Type} `{ModelAbstract model}.

Lemma validate_coef_rejects (m : model) (w w' : list string) (c : pyval) :
  get_coef m w = (Return c, w') ->
  (forall a, c <> PyArray a) ->
  validate_coef m w = (Raise (ValueError "coef must be a numpy array"), w').
Proof.
  intros Hc Hna. unfold validate_coef, bind. rewrite Hc.
  destruct c; try reflexivity. now destruct (Hna a).
Qed.

(** Whatever [get_vcov] returns is an array of shape (k, k), k the
    length of the coefficients: it has no way to return nothing. *)
Lemma get_vcov_returns_square (self : adapter model) (vcov : selector)
    (w w' : list string) (V : ndarray) :
  get_vcov self vcov w = (Return V, w') ->
  exists k, len (coef self) = Return k /\ shape V = [k; k].
Proof.
  unfold get_vcov, bind, lift, ret, raise.
  destruct (get_vcov_raw (a_model self) vcov w) as [[v|e] w1]; [|discriminate].
  destruct v; try discriminate.
  destruct (len (coef self)) as [k|e]; [|discriminate].
  destruct (decide (shape a = [k; k])) as [Hs|Hs]; [|discriminate].
  intros [= <- <-]. eauto.
Qed.
End ContractFacts.

(** C8 (as amended).  The check on the coefficients is on their being
    an [np.ndarray], for every backend.  When [get_coef] hands back
    anything else, construction stops right there with
    [ValueError "coef must be a numpy array"]: the warning log is the
    one [get_coef] left, so none of the model-data, response-name and
    formula getters has run, and no adapter comes back.  When it hands
    back an array, of whatever rank and content, the check passes with
    that array as the coefficients, and construction goes on with the
    three other validations. *)
Theorem C8_coef_check_is_on_the_array_type
    (model : Type) (B : ModelAbstract model) (m : model)
    (w w' : list string) (c : pyval) :
  get_coef m w = (Return c, w') ->
  ((forall a, c <> PyArray a) ->
   init m w = (Raise (ValueError "coef must be a numpy array"), w'))
  /\ (forall a, c = PyArray a ->
      validate_coef m w = (Return a, w')
      /\ init m w =
           (let* d := validate_modeldata m in
            let* r := validate_response_name m in
            let* f := validate_formula m in
            ret (mkAdapter m a d r f)) w').
Proof.
  intros Hc. split.
  - intros Hna. unfold init, bind at 1.
    now rewrite (validate_coef_rejects m w w' c Hc Hna).
  - intros a ->.
    assert (Hv : validate_coef m w = (Return a, w')).
    { unfold validate_coef, bind. now rewrite Hc. }
    split; [exact Hv|]. unfold init, bind at 1. now rewrite Hv.
Qed.

Lemma C8_coef_check_is_on_the_array_type_witness :
  init listy [] = (Raise (ValueError "coef must be a numpy array"), [])
  /\ validate_coef fitted_square [] =
       (Return (np_array (params fitted_square)), [])
  /\ validate_coef (fitted (Nd1 [])) [] = (Return (Nd1 [1; 2]%float), []).
Proof.
  split; [|split].
  - apply (proj1 (C8_coef_check_is_on_the_array_type methods ModelMethods
                    listy [] [] PyObj eq_refl)).
    intros a. discriminate.
  - apply (proj2 (C8_coef_check_is_on_the_array_type sm_results ModelStatsmodels
                    fitted_square [] [] _ eq_refl)).
    reflexivity.
  - apply (proj2 (C8_coef_check_is_on_the_array_type sm_results ModelStatsmodels
                    (fitted (Nd1 [])) [] [] _ eq_refl)).
    reflexivity.
Defined.

(** C8, counterexample.  The coefficients of [fitted_square] are a
    2 x 2 array, not a one-dimensional one, and construction succeeds:
    the check is on the array type alone. *)
Lemma C8_counterexample :
  exists a, init fitted_square [] = (Return a, []) /\ ndim (coef a) = 2
            /\ validate_coef fitted_square [] = (Return (coef a), []).
Proof. eexists. split; [reflexivity | split; reflexivity]. Qed.

(** With the statsmodels backend the coefficient check cannot fail at
    all, as [get_coef] wraps [params] in [np.array]. *)
Lemma statsmodels_coef_always_passes (r : sm_results) (w : list string) :
  validate_coef r w = (Return (np_array (params r)), w).
Proof. reflexivity. Qed.

(** ** Covariance *)

Lemma np_array_none : np_array PyNone = Nd0 ScNone.
Proof. reflexivity. Qed.

(** [get_vcov(False)] raises on every statsmodels adapter: the raw
    result is [np.array(None)], of shape (), which either has no length
    to compare with or fails the comparison with (k, k). *)
Lemma vcov_false_raises_on_every_adapter (self : adapter sm_results) (w : list string) :
  exists e, get_vcov self (SelBool false) w = (Raise e, w).
Proof.
  unfold get_vcov, bind, lift. cbn.
  destruct (len (coef self)) as [k|e]; cbn; eauto.
Qed.

(** C2.  [get_vcov(False)] does not return an absent value.  On the
    adapter built around a fit with two coefficients, [get_vcov_raw]
    turns [None] into a zero-dimensional array and the shape check of
    [get_vcov] raises; and the call raises on every statsmodels
    adapter. *)
Theorem C2_get_vcov_false_raises :
  sm_get_vcov_raw (fitted (Nd1 [])) (SelBool false) [] = (Return (PyArray (Nd0 ScNone)), [])
  /\ init (fitted (Nd1 [])) [] = (Return (fitted_adapter (Nd1 [])), [])
  /\ get_vcov (fitted_adapter (Nd1 [])) (SelBool false) [] =
       (Raise (ValueError
          "vcov must be a square numpy array with dimensions equal to the length of self.coef"),
        [])
  /\ forall (self : adapter sm_results) (w : list string),
       exists e, get_vcov self (SelBool false) w = (Raise e, w).
Proof.
  split; [reflexivity|]. split; [reflexivity|]. split; [reflexivity|].
  exact vcov_false_raises_on_every_adapter.
Qed.

(** C7.  A string selector [s] for which the model has no attribute
    [cov_s] makes [get_vcov] raise a [ValueError] whose message names
    that attribute, and with it [s]; no matrix is returned and nothing
    is warned. *)
Theorem C7_unknown_estimator_raises
    (self : adapter sm_results) (s : string) (w : list string) :
  sm_getattr (a_model self) ("cov_" +:+ s) = None ->
  let msg := "The model object has no " +:+ ("cov_" +:+ s) +:+ " attribute." in
  get_vcov self (SelStr s) w = (Raise (ValueError msg), w)
  /\ mentions msg ("cov_" +:+ s) /\ mentions msg s.
Proof.
  intros Hattr msg. split; [| split].
  - unfold get_vcov, bind. cbn. unfold sm_get_vcov_raw, bind.
    cbn in Hattr |- *. now rewrite Hattr.
  - exists "The model object has no ", " attribute.". reflexivity.
  - exists "The model object has no cov_", " attribute.". reflexivity.
Qed.

Lemma C7_unknown_estimator_raises_witness :
  get_vcov (fitted_adapter (Nd1 [])) (SelStr "HC3") [] =
    (Raise (ValueError "The model object has no cov_HC3 attribute."), [])
  /\ mentions "The model object has no cov_HC3 attribute." "HC3".
Proof.
  destruct (C7_unknown_estimator_raises (fitted_adapter (Nd1 [])) "HC3" [])
    as (Hr & _ & Hm).
  - vm_compute. reflexivity.
  - split; [exact Hr | exact Hm].
Defined.

(** A selector that names an existing accessor goes through. *)
Example get_vcov_HC1 :
  exists V, get_vcov (fitted_adapter (Nd1 [])) (SelStr "HC1") [] = (Return V, [])
            /\ shape V = [2; 2].
Proof. eexists. split; reflexivity. Qed.

(** ** Variable names *)

Lemma isin_true (x : string) (l : list string) : isin x l = true <-> x ∈ l.
Proof. unfold isin. apply bool_decide_eq_true. Qed.

Lemma isin_false (x : string) (l : list string) : isin x l = false <-> x ∉ l.
Proof. unfold isin. apply bool_decide_eq_false. Qed.

Lemma strs_EStr (l : list string) : strs (map EStr l) = l.
Proof. induction l as [|x l IH]; [reflexivity|]. unfold strs in *. cbn. now f_equal. Qed.

Lemma all_str_EStr (l : list string) : forallb is_str (map EStr l) = true.
Proof. induction l as [|x l IH]; [reflexivity|]. exact IH. Qed.

Lemma present_all (cols names : list string) :
  Forall (fun x => x ∈ cols) names -> present cols names = names.
Proof.
  induction 1 as [|x l Hx _ IH]; [reflexivity|].
  unfold present in *. cbn. apply isin_true in Hx. now rewrite Hx, IH.
Qed.

Lemma absent_none (cols names : list string) :
  Forall (fun x => x ∈ cols) names -> absent cols names = [].
Proof.
  induction 1 as [|x l Hx _ IH]; [reflexivity|].
  unfold absent in *. cbn. apply isin_true in Hx. now rewrite Hx, IH.
Qed.

Lemma get_variables_names_requested unique self v newdata w names :
  requested_names v = Some names ->
  names_of (normalized v) = names
  /\ get_variables_names unique self v newdata w = checked (columns newdata) (normalized v) w.
Proof.
  intros Hreq.
  assert (Hnames : names_of (normalized v) = names).
  { destruct v; cbn in Hreq |- *; try congruence.
    destruct (forallb is_str l); congruence. }
  split; [exact Hnames|].
  unfold checked, present, absent.
  destruct v; cbn in Hreq; try discriminate; unfold get_variables_names;
    [ | | destruct (forallb is_str l); [|discriminate] ];
    unfold bind, ret, raise, warn; cbn [normalized names_of];
    match goal with
    | |- context [List.filter (fun x => negb (isin x ?c)) ?n] =>
        destruct (List.filter (fun x => negb (isin x c)) n) as [|b bs];
        destruct (List.filter (fun x => isin x c) n) as [|g gs]
    end; reflexivity.
Qed.

Lemma get_variables_names_inferred unique self newdata w :
  unique_contract unique ->
  get_variables_names unique self VarNone newdata w =
    (match inferred_names unique (a_model self) newdata with
     | [] => Raise (ValueError no_valid_column_message)
     | l => Return (ResList l)
     end, w).
Proof.
  intros Hu. unfold get_variables_names. cbv beta iota zeta.
  set (l := inferred_names unique (a_model self) newdata).
  rewrite all_str_EStr. unfold bind, ret, raise, warn. cbv beta iota zeta.
  rewrite strs_EStr. cbn [names_of].
  assert (Hall : Forall (fun x => x ∈ columns newdata) l).
  { apply Forall_forall. intros x Hx. unfold l, inferred_names in Hx.
    apply (proj2 (Hu _)), list_elem_of_In, filter_In in Hx as [_ Hx].
    now apply isin_true. }
  fold (absent (columns newdata) l). fold (present (columns newdata) l).
  rewrite (absent_none _ _ Hall), (present_all _ _ Hall). cbn.
  destruct l; reflexivity.
Qed.

(** [unique_stable] keeps the first occurrence of every name. *)
Lemma unique_from_spec (seen l : list string) :
  NoDup (unique_from seen l)
  /\ forall x, x ∈ unique_from seen l <-> x ∈ l /\ x ∉ seen.
Proof.
  revert seen. induction l as [|a l IH]; intros seen; cbn.
  - split; [constructor|]. intros x. rewrite elem_of_nil. tauto.
  - destruct (isin a seen) eqn:Ha.
    + destruct (IH seen) as [Hnd Hin]. split; [exact Hnd|].
      intros x. rewrite Hin, elem_of_cons. apply isin_true in Ha.
      split; [tauto|]. intros [[->|Hx] Hs]; tauto.
    + destruct (IH (a :: seen)) as [Hnd Hin]. apply isin_false in Ha. split.
      * constructor; [|exact Hnd]. rewrite Hin, elem_of_cons. tauto.
      * intros x. rewrite !elem_of_cons, Hin, elem_of_cons.
        destruct (decide (x = a)) as [->|Hne]; tauto.
Qed.

Lemma unique_stable_contract : unique_contract unique_stable.
Proof.
  intros l. destruct (unique_from_spec [] l) as [Hnd Hin]. split; [exact Hnd|].
  intros x. unfold unique_stable. rewrite Hin, elem_of_nil. tauto.
Qed.

Lemma unique_from_filter (P : string -> bool) (l seen seen' : list string) :
  (forall x, P x = true -> (x ∈ seen <-> x ∈ seen')) ->
  unique_from seen (List.filter P l) = List.filter P (unique_from seen' l).
Proof.
  revert seen seen'. induction l as [|a l IH]; intros seen seen' Hs; [reflexivity|].
  cbn. destruct (P a) eqn:HP.
  - cbn. assert (Heq : isin a seen = isin a seen').
    { unfold isin. apply bool_decide_ext, Hs, HP. }
    rewrite Heq. destruct (isin a seen'); [now apply IH|].
    cbn. rewrite HP. f_equal. apply IH. intros x Hx.
    rewrite !elem_of_cons, (Hs x Hx). tauto.
  - destruct (isin a seen').
    + now apply IH.
    + cbn. rewrite HP. apply IH. intros x Hx. rewrite elem_of_cons, (Hs x Hx).
      split; [tauto|]. intros [->|]; [congruence|tauto].
Qed.

Lemma unique_stable_filter (P : string -> bool) (l : list string) :
  unique_stable (List.filter P l) = List.filter P (unique_stable l).
Proof. apply unique_from_filter. tauto. Qed.

(** C1 (as amended).  For a request that is a string, a mapping or a
    list of strings: when some of its names are columns of the table
    and some are not, [get_variables_names] warns once, listing the
    names that are not, and returns the request as it stands, with all
    its names, present and absent, in their order; when none of its
    names is a column, it raises [ValueError]. *)
Theorem C1_partial_selection_warns_and_returns_request
    (unique : list string -> list string) (self : adapter sm_results)
    (v : variables_arg) (newdata : DataFrame) (w : list string) (names : list string) :
  requested_names v = Some names ->
  (present (columns newdata) names <> [] ->
   absent (columns newdata) names <> [] ->
   get_variables_names unique self v newdata w =
     (Return (normalized v),
      w ++ ["Variable(s) not in newdata: " +:+ join ", " (absent (columns newdata) names)])
   /\ names_of (normalized v) = names)
  /\ (present (columns newdata) names = [] ->
      get_variables_names unique self v newdata w =
        (Raise (ValueError no_valid_column_message),
         match absent (columns newdata) names with
         | [] => w
         | bad => w ++ ["Variable(s) not in newdata: " +:+ join ", " bad]
         end)).
Proof.
  intros Hreq.
  destruct (get_variables_names_requested unique self v newdata w names Hreq) as [Hn ->].
  unfold checked. rewrite Hn. split.
  - intros Hp Ha. split; [|reflexivity].
    destruct (present (columns newdata) names); [congruence|].
    destruct (absent (columns newdata) names); [congruence|]. reflexivity.
  - intros ->. reflexivity.
Qed.

Lemma C1_partial_selection_warns_and_returns_request_witness :
  get_variables_names unique_stable (fitted_adapter (Nd1 []))
    (VarList [EStr "x1"; EStr "zz"; EStr "x2"]) guerry [] =
    (Return (ResList ["x1"; "zz"; "x2"]), ["Variable(s) not in newdata: zz"])
  /\ get_variables_names unique_stable (fitted_adapter (Nd1 []))
       (VarStr "zz") guerry [] =
       (Raise (ValueError no_valid_column_message), ["Variable(s) not in newdata: zz"]).
Proof.
  split.
  - apply (C1_partial_selection_warns_and_returns_request unique_stable
             (fitted_adapter (Nd1 [])) (VarList [EStr "x1"; EStr "zz"; EStr "x2"])
             guerry [] ["x1"; "zz"; "x2"]).
    + reflexivity.
    + vm_compute. discriminate.
    + vm_compute. discriminate.
  - apply (C1_partial_selection_warns_and_returns_request unique_stable
             (fitted_adapter (Nd1 [])) (VarStr "zz") guerry [] ["zz"]).
    + reflexivity.
    + vm_compute. reflexivity.
Defined.

(** C1, counterexample.  Of the requested [x1] and [zz] only [x1] is a
    column; the call warns about [zz] and returns both names, not the
    present one alone. *)
Lemma C1_counterexample :
  get_variables_names unique_stable (fitted_adapter (Nd1 []))
    (VarList [EStr "x1"; EStr "zz"]) guerry [] =
    (Return (ResList ["x1"; "zz"]), ["Variable(s) not in newdata: zz"])
  /\ present (columns guerry) ["x1"; "zz"] = ["x1"]
  /\ ResList ["x1"; "zz"] <> ResList (present (columns guerry) ["x1"; "zz"]).
Proof. split; [reflexivity | split; [reflexivity | vm_compute; discriminate]]. Qed.

(** C3 (as amended).  A non-empty mapping all of whose keys are columns
    of the table comes back as the mapping itself, keys and values
    unchanged, and nothing is warned. *)
Theorem C3_mapping_is_returned_unchanged
    (unique : list string -> list string) (self : adapter sm_results)
    (d : list (string * pyval)) (newdata : DataFrame) (w : list string) :
  d <> [] ->
  Forall (fun x => x ∈ columns newdata) (map fst d) ->
  get_variables_names unique self (VarDict d) newdata w = (Return (ResDict d), w).
Proof.
  intros Hd Hkeys.
  destruct (get_variables_names_requested unique self (VarDict d) newdata w (map fst d))
    as [_ ->]; [reflexivity|].
  unfold checked. cbn [normalized names_of].
  rewrite (present_all _ _ Hkeys), (absent_none _ _ Hkeys).
  destruct d; [congruence|reflexivity].
Qed.

Lemma C3_mapping_is_returned_unchanged_witness :
  get_variables_names unique_stable (fitted_adapter (Nd1 []))
    (VarDict [("x1", PyInt 100); ("x2", PyObj)]) guerry [] =
    (Return (ResDict [("x1", PyInt 100); ("x2", PyObj)]), []).
Proof.
  apply (C3_mapping_is_returned_unchanged unique_stable (fitted_adapter (Nd1 []))
           [("x1", PyInt 100); ("x2", PyObj)] guerry []).
  - discriminate.
  - vm_compute. repeat constructor.
Defined.

(** C3, counterexample.  The mapping [{"x1": 100}] is returned as a
    mapping, not as the list of its keys. *)
Lemma C3_counterexample :
  get_variables_names unique_stable (fitted_adapter (Nd1 []))
    (VarDict [("x1", PyInt 100)]) guerry [] = (Return (ResDict [("x1", PyInt 100)]), [])
  /\ ResDict [("x1", PyInt 100)] <> ResList ["x1"].
Proof. split; [reflexivity | discriminate]. Qed.

(** An empty mapping is refused like any empty selection. *)
Example empty_mapping_raises :
  get_variables_names unique_stable (fitted_adapter (Nd1 [])) (VarDict []) guerry [] =
    (Raise (ValueError no_valid_column_message), []).
Proof. reflexivity. Qed.

(** C4 (as amended).  With [variables] absent, take the model's
    predictor terms, delete in each everything from its first opening
    bracket to the last closing bracket on the line, and keep the names
    that are columns of the table.  If any is left, the call returns
    them without duplicates as [unique] lists them, and warns of
    nothing; if none is left, it raises [ValueError].  The list is in
    first-seen order of the predictor terms whenever [unique] keeps the
    order of its argument. *)
Theorem C4_inferred_names
    (unique : list string -> list string) (self : adapter sm_results)
    (newdata : DataFrame) (w : list string) :
  unique_contract unique ->
  let terms := map re_sub_brackets (exog_names (model_of (a_model self))) in
  let candidates := List.filter (fun x => isin x (columns newdata)) terms in
  (candidates <> [] ->
   get_variables_names unique self VarNone newdata w =
     (Return (ResList (unique candidates)), w))
  /\ (candidates = [] ->
      get_variables_names unique self VarNone newdata w =
        (Raise (ValueError no_valid_column_message), w))
  /\ NoDup (unique candidates)
  /\ (forall x, x ∈ unique candidates <-> x ∈ terms /\ x ∈ columns newdata)
  /\ ((forall l, unique l = unique_stable l) ->
      unique candidates =
        List.filter (fun x => isin x (columns newdata)) (unique_stable terms)).
Proof.
  intros Hu terms candidates.
  pose proof (get_variables_names_inferred unique self newdata w Hu) as Hget.
  unfold inferred_names in Hget. fold terms in Hget. fold candidates in Hget.
  destruct (Hu candidates) as [Hnd Hin].
  split; [|split; [|split; [|split]]].
  - intros Hne. rewrite Hget. destruct (unique candidates) as [|x l] eqn:E; [|reflexivity].
    destruct candidates as [|c cs]; [congruence|].
    specialize (Hin c). rewrite elem_of_nil, elem_of_cons in Hin. tauto.
  - intros He. rewrite Hget. destruct (unique candidates) as [|x l] eqn:E; [reflexivity|].
    specialize (Hin x). rewrite He, elem_of_cons, elem_of_nil in Hin. tauto.
  - exact Hnd.
  - intros x. rewrite Hin. unfold candidates.
    rewrite !list_elem_of_In, filter_In, isin_true, list_elem_of_In. tauto.
  - intros Hst. rewrite Hst. apply unique_stable_filter.
Qed.

Lemma C4_inferred_names_witness :
  get_variables_names unique_stable (fitted_adapter (Nd1 [])) VarNone guerry [] =
    (Return (ResList ["x1"; "x2"]), []).
Proof.
  destruct (C4_inferred_names unique_stable (fitted_adapter (Nd1 [])) guerry []
              unique_stable_contract) as [Hret _].
  apply Hret. vm_compute. discriminate.
Defined.

(** C4, counterexample.  The only predictor term is the intercept, which
    is no column of the table: the names left are none, and instead of
    returning the empty list the call raises. *)
Lemma C4_counterexample :
  let self := mkAdapter
                (mkSmResults (PyPandasSeries [1%float]) PyNone ∅
                   (mkSmModel (PyPolars guerry) (PyStr "y") ["Intercept"] (PyStr "y ~ 1")
                      (fun _ _ => Return (Nd1 []))))
                (Nd1 [1%float]) guerry "y" "y ~ 1" in
  unique_stable (List.filter (fun x => isin x (columns guerry))
                   (map re_sub_brackets ["Intercept"])) = []
  /\ get_variables_names unique_stable self VarNone guerry [] =
       (Raise (ValueError no_valid_column_message), []).
Proof. split; reflexivity. Qed.

(** The brackets of categorical levels are removed and the duplicates
    they leave are merged. *)
Example inferred_names_strip :
  inferred_names unique_stable
    (mkSmResults PyNone PyNone ∅
       (mkSmModel PyNone PyNone ["Intercept"; "x2[T.b]"; "x2[T.c]"; "x1"] PyNone
          (fun _ _ => Return (Nd1 []))))
    guerry = ["x2"; "x1"].
Proof. reflexivity. Qed.

(** A [unique] that keeps no order meets the contract as well, and then
    the names come back in another order than the predictor terms. *)
Example inferred_names_order_is_that_of_unique :
  unique_contract (fun l => rev (unique_stable l))
  /\ get_variables_names (fun l => rev (unique_stable l))
       (fitted_adapter (Nd1 [])) VarNone guerry [] = (Return (ResList ["x2"; "x1"]), []).
Proof.
  split; [|reflexivity].
  intros l. destruct (unique_stable_contract l) as [Hnd Hin]. split.
  - apply NoDup_ListNoDup, NoDup_rev. now apply NoDup_ListNoDup.
  - intros x. now rewrite <- Hin, !list_elem_of_In, <- in_rev.
Qed.

(** ** Predictions *)

(** *** Column labels *)

Lemma str_inj (i j : nat) : str i = str j -> i = j.
Proof.
  unfold str. intros E. apply (f_equal NilEmpty.uint_of_string) in E.
  rewrite !NilEmpty.usu in E. injection E as E.
  apply (f_equal Nat.of_uint) in E. now rewrite !Unsigned.of_to in E.
Qed.

Lemma str_not_rowid (j : nat) : str j <> "rowid".
Proof.
  unfold str. intros E. apply (f_equal NilEmpty.uint_of_string) in E.
  rewrite NilEmpty.usu in E. discriminate E.
Qed.

Lemma colnames_lookup (k j : nat) :
  j < k -> colnames k !! ("column_" +:+ str j) = Some (str j).
Proof.
  intros Hj. unfold colnames. apply elem_of_list_to_map_1.
  - change (map ?f ?l) with (f <$> l). rewrite <- list_fmap_compose.
    apply NoDup_fmap_2; [|apply NoDup_seq].
    intros a b E. cbn in E. injection E as E. now apply str_inj.
  - apply list_elem_of_In, in_map_iff. exists j. split; [reflexivity|].
    apply in_seq. lia.
Qed.


Lemma rename_frame_of_array n k entry :
  rename (colnames k) (frame_of_array n k entry) = wide n k entry.
Proof.
  unfold rename, frame_of_array, wide. rewrite map_map. apply map_ext_in.
  intros j Hj. apply in_seq in Hj. cbn [fst snd].
  rewrite colnames_lookup by lia. reflexivity.
Qed.

Lemma wide_fresh n k entry : Forall (fun c => fst c <> "rowid") (wide n k entry).
Proof.
  apply Forall_forall. intros c Hc. apply list_elem_of_In, in_map_iff in Hc as (j & <- & _).
  apply str_not_rowid.
Qed.

Lemma wide_height n k entry : k <> 0 -> height (wide n k entry) = n.
Proof.
  destruct k; [congruence|]. intros _. cbn. now rewrite length_map, length_seq.
Qed.

(** *** Table operations *)

Lemma range_fits (n : nat) :
  forallb fits_int32 (map CInt (range n)) = true <-> (Z.of_nat n <= int32_max + 1)%Z.
Proof.
  unfold range, int32_max. rewrite forallb_forall. split.
  - intros Hall. destruct n as [|n]; [lia|].
    specialize (Hall (CInt (Z.of_nat n))). cbn [fits_int32] in Hall.
    unfold int32_max in Hall. rewrite andb_true_iff, !Z.leb_le in Hall.
    enough (Z.of_nat n <= 2 ^ 31 - 1)%Z by lia. apply Hall.
    apply in_map, in_map, in_seq. lia.
  - intros Hn c Hc. apply in_map_iff in Hc as (z & <- & Hz).
    apply in_map_iff in Hz as (i & <- & Hi). apply in_seq in Hi.
    cbn. unfold int32_min, int32_max. rewrite andb_true_iff, !Z.leb_le. lia.
Qed.

Lemma series_range_int32_spec (n : nat) (s : Series) :
  series_range_int32 n = Return s <->
  (Z.of_nat n <= int32_max + 1)%Z /\ s = mkSeries Int32 (map CInt (range n)).
Proof.
  unfold series_range_int32, cast_int32. cbn [vals].
  destruct (forallb fits_int32 (map CInt (range n))) eqn:E.
  - apply range_fits in E. split; [intros [= <-]; now split | intros [_ ->]; reflexivity].
  - split; [discriminate|]. intros [Hn _]. apply range_fits in Hn. congruence.
Qed.

Lemma put_column_fresh (df : DataFrame) (name : string) (s : Series) :
  Forall (fun c => fst c <> name) df -> put_column df name s = df ++ [(name, s)].
Proof.
  induction 1 as [|[nm s'] df Hne _ IH]; [reflexivity|].
  cbn in *. rewrite decide_False by exact Hne. now rewrite IH.
Qed.

Lemma get_column_fresh (df : DataFrame) (name : string) (s : Series) :
  Forall (fun c => fst c <> name) df -> get_column (df ++ [(name, s)]) name = Some s.
Proof.
  induction 1 as [|[nm s'] df Hne _ IH]; cbn.
  - now rewrite decide_True.
  - cbn in Hne. now rewrite decide_False.
Qed.

Lemma filter_fresh (df : DataFrame) (name : string) (s : Series) :
  Forall (fun c => fst c <> name) df ->
  filter (fun c => fst c <> name) (df ++ [(name, s)]) = df.
Proof.
  induction 1 as [|c df Hne _ IH].
  - cbn [app]. rewrite filter_cons, decide_False; [reflexivity|]. cbn. tauto.
  - cbn [app]. rewrite filter_cons, decide_True by exact Hne. now rewrite IH.
Qed.

Lemma with_columns_fresh (df : DataFrame) (name : string) (s : Series) :
  Forall (fun c => fst c <> name) df ->
  df = [] \/ length (vals s) = height df ->
  with_columns df name s = Return (df ++ [(name, s)]).
Proof.
  intros Hf Hlen. destruct df as [|c df]; [reflexivity|].
  destruct Hlen as [|Hlen]; [discriminate|]. unfold with_columns.
  rewrite decide_True by exact Hlen. now rewrite put_column_fresh.
Qed.

Lemma melt_wide n k entry ids :
  k <> 0 ->
  melt (wide n k entry ++ [("rowid", ids)]) "rowid" "group" "estimate" =
    Return
      [ ("rowid", mkSeries (dt ids) (concat (repeat (vals ids) k)));
        ("group", mkSeries Utf8 (concat (map (fun j => repeat (CStr (str j)) n) (seq 0 k))));
        ("estimate",
         mkSeries (match k with O => Null | S _ => Float64 end)
           (concat (map (fun j => map (fun i => CFloat (entry i j)) (seq 0 n)) (seq 0 k)))) ].
Proof.
  intros Hk. unfold melt. rewrite get_column_fresh by apply wide_fresh.
  rewrite filter_fresh by apply wide_fresh.
  assert (E1 : map (fun _ : string * Series => vals ids) (wide n k entry)
               = repeat (vals ids) k).
  { rewrite map_const. unfold wide. now rewrite length_map, length_seq. }
  assert (E2 : map (fun c : string * Series => repeat (CStr (fst c)) (length (vals (snd c))))
                 (wide n k entry)
               = map (fun j => repeat (CStr (str j)) n) (seq 0 k)).
  { unfold wide. rewrite map_map. apply map_ext. intros j. cbn.
    now rewrite length_map, length_seq. }
  assert (E3 : map (fun c : string * Series => vals (snd c)) (wide n k entry)
               = map (fun j => map (fun i => CFloat (entry i j)) (seq 0 n)) (seq 0 k)).
  { unfold wide. now rewrite map_map. }
  assert (Hw : exists first rest,
             wide n k entry = first :: rest /\ dt (snd first) = Float64).
  { destruct k as [|k]; [congruence|]. eexists _, _. split; reflexivity. }
  destruct Hw as (first & rest & Hw & Hdt).
  rewrite Hw in E1, E2, E3 |- *. cbv beta iota zeta. rewrite E1, E2, E3, Hdt.
  destruct k as [|k]; [congruence | reflexivity].
Qed.

(** A table whose only column is the identifier has nothing to melt. *)
Lemma melt_no_value_column (ids : Series) :
  melt [("rowid", ids)] "rowid" "group" "estimate" =
    Raise (PanicException "melt: no value column").
Proof. reflexivity. Qed.

Lemma concat_repeat_fits (l : list cell) (k : nat) :
  forallb fits_int32 l = true -> forallb fits_int32 (concat (repeat l k)) = true.
Proof.
  intros Hl. induction k as [|k IH]; [reflexivity|].
  cbn. now rewrite forallb_app, Hl, IH.
Qed.

Lemma cast_rowid_first (s : Series) (rest : DataFrame) :
  forallb fits_int32 (vals s) = true ->
  cast_rowid (("rowid", s) :: rest) = Return (("rowid", mkSeries Int32 (vals s)) :: rest).
Proof.
  intros Hs. unfold cast_rowid, cast_int32. cbn [get_column].
  rewrite decide_True by reflexivity. rewrite Hs. unfold with_columns. cbn [height vals].
  rewrite decide_True by reflexivity. cbn [put_column].
  now rewrite decide_True by reflexivity.
Qed.

Lemma cast_rowid_first_inv (s : Series) (rest df : DataFrame) :
  cast_rowid (("rowid", s) :: rest) = Return df ->
  forallb fits_int32 (vals s) = true.
Proof.
  unfold cast_rowid, cast_int32. cbn [get_column].
  rewrite decide_True by reflexivity.
  destruct (forallb fits_int32 (vals s)); [reflexivity | discriminate].
Qed.

(** *** The three kinds of backend output *)

Section GetPredict.
Variable dmatrices : pyval -> DataFrame -> result (ndarray * ndarray).
Variables (self : adapter sm_results) (params : ndarray) (newdata : newdata_arg).
Variable w : list string.

Lemma get_predict_unfold :
  get_predict dmatrices self params newdata w =
    match backend_output dmatrices self params newdata with
    | Raise e => (Raise e, w)
    | Return (Nd1 v) =>
        (match newdata_rows newdata with
         | Return n =>
             match frame_of_rowid_estimate n v with
             | Return df => cast_rowid df
             | Raise e => Raise e
             end
         | Raise e => Raise e
         end, w)
    | Return (Nd2 n k entry) =>
        (match series_range_int32 n with
         | Return rowid =>
             match with_columns (rename (colnames k) (frame_of_array n k entry))
                     "rowid" rowid with
             | Return df =>
                 match melt df "rowid" "group" "estimate" with
                 | Return long => cast_rowid long
                 | Raise e => Raise e
                 end
             | Raise e => Raise e
             end
         | Raise e => Raise e
         end, w)
    | Return _ => (Raise (ValueError predict_rank_message), w)
    end.
Proof.
  unfold get_predict, backend_output, bind, lift, ret, raise.
  destruct newdata as [a|df].
  - destruct (sm_predict _ params a) as [[x|v|n k entry|d1 d2 d3 rest]|e];
      try reflexivity.
    + destruct (newdata_rows (NewArray a)) as [n|e]; [|reflexivity].
      now destruct (frame_of_rowid_estimate n v).
    + destruct (series_range_int32 n) as [rowid|e]; [|reflexivity].
      destruct (with_columns _ "rowid" rowid) as [df|e]; [|reflexivity].
      now destruct (melt df "rowid" "group" "estimate").
  - destruct (dmatrices _ df) as [[y exog]|e]; [|reflexivity]. cbn [snd].
    destruct (sm_predict _ params exog) as [[x|v|n k entry|d1 d2 d3 rest]|e];
      try reflexivity.
    + destruct (newdata_rows (NewFrame df)) as [n|e]; [|reflexivity].
      now destruct (frame_of_rowid_estimate n v).
    + destruct (series_range_int32 n) as [rowid|e]; [|reflexivity].
      destruct (with_columns _ "rowid" rowid) as [df'|e]; [|reflexivity].
      now destruct (melt df' "rowid" "group" "estimate").
Qed.

Lemma get_predict_rank1 (v : list float) :
  backend_output dmatrices self params newdata = Return (Nd1 v) ->
  newdata_rows newdata = Return (length v) ->
  (Z.of_nat (length v) <= int32_max + 1)%Z ->
  get_predict dmatrices self params newdata w = (Return (short_table v), w).
Proof.
  intros Hp Hn Hfit. rewrite get_predict_unfold, Hp, Hn.
  unfold frame_of_rowid_estimate. rewrite decide_True by reflexivity.
  rewrite cast_rowid_first; [reflexivity|]. now apply range_fits.
Qed.

Lemma get_predict_rank2 (n k : nat) (entry : nat -> nat -> float) :
  backend_output dmatrices self params newdata = Return (Nd2 n k entry) ->
  1 <= k ->
  (Z.of_nat n <= int32_max + 1)%Z ->
  get_predict dmatrices self params newdata w = (Return (long_table n k entry), w).
Proof.
  intros Hp Hk Hfit. rewrite get_predict_unfold, Hp.
  rewrite (proj2 (series_range_int32_spec n _) (conj Hfit eq_refl)).
  rewrite rename_frame_of_array.
  rewrite with_columns_fresh; [| apply wide_fresh |].
  - rewrite melt_wide by lia. cbn [dt vals]. rewrite cast_rowid_first; [reflexivity|].
    cbn [vals]. apply concat_repeat_fits. now apply range_fits.
  - right. rewrite wide_height by lia. cbn [vals].
    unfold range. now rewrite !length_map, length_seq.
Qed.

(** A matrix without any column gives no table: [melt] has no value
    column to work on. *)
Lemma get_predict_rank2_no_column (n : nat) (entry : nat -> nat -> float) :
  backend_output dmatrices self params newdata = Return (Nd2 n 0 entry) ->
  exists e, get_predict dmatrices self params newdata w = (Raise e, w).
Proof.
  intros Hp. rewrite get_predict_unfold, Hp.
  destruct (series_range_int32 n) as [rowid|e]; [|eauto].
  cbn. eauto.
Qed.

(** A matrix for which a table is returned has a column, its rows fit
    the Int32 [rowid], and the table is its long table. *)
Lemma get_predict_rank2_inv (n k : nat) (entry : nat -> nat -> float)
    (df : DataFrame) (w' : list string) :
  backend_output dmatrices self params newdata = Return (Nd2 n k entry) ->
  get_predict dmatrices self params newdata w = (Return df, w') ->
  1 <= k /\ (Z.of_nat n <= int32_max + 1)%Z /\ df = long_table n k entry /\ w' = w.
Proof.
  intros Hp Hget.
  destruct k as [|k].
  { destruct (get_predict_rank2_no_column n entry Hp) as [e He].
    rewrite He in Hget. discriminate. }
  destruct (series_range_int32 n) as [rowid|e] eqn:Hrange.
  - apply series_range_int32_spec in Hrange as [Hfit _].
    rewrite (get_predict_rank2 n (S k) entry Hp ltac:(lia) Hfit) in Hget.
    injection Hget as <- <-. repeat split; [lia | exact Hfit].
  - rewrite get_predict_unfold, Hp, Hrange in Hget. discriminate.
Qed.
End GetPredict.

(** *** Reading the long table *)

Lemma lookup_concat_blocks {A} (f : nat -> list A) (n : nat) :
  (forall j, length (f j) = n) ->
  forall k s j i, j < k -> i < n ->
    concat (map f (seq s k)) !! (j * n + i) = f (s + j) !! i.
Proof.
  intros Hlen. induction k as [|k IH]; intros s j i Hj Hi; [lia|].
  cbn [seq map concat]. destruct j as [|j].
  - rewrite Nat.add_0_r. cbn. apply lookup_app_l. now rewrite Hlen.
  - rewrite lookup_app_r by (rewrite Hlen; cbn; lia).
    rewrite Hlen. replace (S j * n + i - n) with (j * n + i) by (cbn; lia).
    rewrite IH by lia. f_equal. f_equal. lia.
Qed.

Lemma length_concat_blocks {A} (f : nat -> list A) (n : nat) :
  (forall j, length (f j) = n) ->
  forall k s, length (concat (map f (seq s k))) = k * n.
Proof.
  intros Hlen. induction k as [|k IH]; intros s; [reflexivity|].
  cbn [seq map concat]. rewrite length_app, Hlen, IH. reflexivity.
Qed.

Lemma repeat_as_blocks {A} (x : A) (k : nat) : repeat x k = map (fun _ => x) (seq 0 k).
Proof. now rewrite map_const, length_seq. Qed.

Lemma lookup_repeat {A} (x : A) (n i : nat) : i < n -> repeat x n !! i = Some x.
Proof.
  revert i. induction n as [|n IH]; intros i Hi; [lia|].
  destruct i as [|i]; [reflexivity|]. cbn. apply IH. lia.
Qed.

Lemma lookup_range (n i : nat) : i < n -> map CInt (range n) !! i = Some (CInt (Z.of_nat i)).
Proof.
  intros Hi. unfold range. rewrite map_map.
  change (map ?f ?l) with (f <$> l). rewrite list_lookup_fmap.
  now rewrite lookup_seq_lt.
Qed.

Lemma long_table_rows n k entry : rows (long_table n k entry) (k * n).
Proof.
  unfold rows, long_table. repeat constructor; cbn [snd vals].
  - rewrite repeat_as_blocks. apply length_concat_blocks. intros _.
    unfold range. now rewrite !length_map, length_seq.
  - apply length_concat_blocks. intros j. apply repeat_length.
  - apply length_concat_blocks. intros j. now rewrite length_map, length_seq.
Qed.

(** Position [j * n + i] of the long table is observation [i] in
    category [j]. *)
Lemma long_table_row n k entry j i :
  j < k -> i < n ->
  row_at (long_table n k entry) (j * n + i) =
    (Some (CInt (Z.of_nat i)), Some (CStr (str j)), Some (CFloat (entry i j))).
Proof.
  intros Hj Hi. unfold row_at, long_table.
  change (get_column _ "rowid") with
    (Some (mkSeries Int32 (concat (repeat (map CInt (range n)) k)))).
  change (get_column _ "group") with
    (Some (mkSeries Utf8 (concat (map (fun j => repeat (CStr (str j)) n) (seq 0 k))))).
  change (get_column _ "estimate") with
    (Some (mkSeries (match k with O => Null | S _ => Float64 end)
       (concat (map (fun j => map (fun i => CFloat (entry i j)) (seq 0 n)) (seq 0 k))))).
  cbn [cell_at vals]. f_equal; [f_equal|].
  - rewrite repeat_as_blocks, lookup_concat_blocks; try assumption.
    + now apply lookup_range.
    + intros _. unfold range. now rewrite !length_map, length_seq.
  - rewrite lookup_concat_blocks; try assumption.
    + now apply lookup_repeat.
    + intros j'. apply repeat_length.
  - rewrite lookup_concat_blocks; try assumption.
    + cbn. change (map ?f ?l) with (f <$> l). rewrite list_lookup_fmap.
      now rewrite lookup_seq_lt.
    + intros j'. now rewrite length_map, length_seq.
Qed.

Lemma group_labels_long n k entry (g : string) :
  g ∈ group_labels (long_table n k entry) <-> 0 < n /\ exists j, j < k /\ g = str j.
Proof.
  unfold group_labels, long_table.
  change (get_column _ "group") with
    (Some (mkSeries Utf8 (concat (map (fun j => repeat (CStr (str j)) n) (seq 0 k))))).
  cbn [vals]. rewrite list_elem_of_omap. split.
  - intros (c & Hc & Hg). apply list_elem_of_In, in_concat in Hc as (l & Hl & Hc).
    apply in_map_iff in Hl as (j & <- & Hj). apply in_seq in Hj.
    assert (Hn : 0 < n) by (destruct n; [destruct Hc | lia]).
    apply repeat_spec in Hc as ->. injection Hg as <-.
    split; [exact Hn|]. exists j. split; [lia | reflexivity].
  - intros (Hn & j & Hj & ->). exists (CStr (str j)). split; [|reflexivity].
    apply list_elem_of_In, in_concat. exists (repeat (CStr (str j)) n). split.
    + apply in_map_iff. exists j. split; [reflexivity|]. apply in_seq. lia.
    + destruct n; [lia|]. now left.
Qed.

Lemma group_labels_distinct n k entry :
  1 <= n -> length (remove_dups (group_labels (long_table n k entry))) = k.
Proof.
  intros Hn. transitivity (length (map str (seq 0 k)));
    [| now rewrite length_map, length_seq].
  apply Permutation_length, NoDup_Permutation.
  - apply NoDup_remove_dups.
  - change (map ?f ?l) with (f <$> l). apply NoDup_fmap_2; [|apply NoDup_seq].
    intros a b. apply str_inj.
  - intros g. rewrite elem_of_remove_dups, group_labels_long, list_elem_of_In, in_map_iff.
    split.
    + intros (_ & j & Hj & ->). exists j. split; [reflexivity|]. apply in_seq. lia.
    + intros (j & <- & Hj). apply in_seq in Hj. split; [lia|]. exists j. split; [lia|reflexivity].
Qed.

(** C5 (as amended).  When the backend returns an n x k matrix with at
    least one column (and n within the Int32 range of [rowid]),
    [get_predict] returns a long table of n * k rows.  Every row holds
    a row number i below n, the label [str j] of a column j below k,
    and the matrix entry (i, j); every such pair (i, j) is on exactly
    one row.  As soon as there is a row to predict (n at least 1), the
    [group] column takes exactly k distinct values, the labels "0" to
    "k-1". *)
Theorem C5_rank2_long_table
    (dmatrices : pyval -> DataFrame -> result (ndarray * ndarray))
    (self : adapter sm_results) (params : ndarray) (newdata : newdata_arg)
    (w : list string) (n k : nat) (entry : nat -> nat -> float) :
  backend_output dmatrices self params newdata = Return (Nd2 n k entry) ->
  1 <= k ->
  (Z.of_nat n <= int32_max + 1)%Z ->
  exists df,
    get_predict dmatrices self params newdata w = (Return df, w)
    /\ rows df (n * k)
    /\ (1 <= n ->
        length (remove_dups (group_labels df)) = k
        /\ forall g, g ∈ group_labels df <-> exists j, j < k /\ g = str j)
    /\ (forall idx, idx < n * k ->
        exists i j, i < n /\ j < k /\
          row_at df idx =
            (Some (CInt (Z.of_nat i)), Some (CStr (str j)), Some (CFloat (entry i j))))
    /\ (forall i j, i < n -> j < k ->
        exists idx, idx < n * k
          /\ row_at df idx =
               (Some (CInt (Z.of_nat i)), Some (CStr (str j)), Some (CFloat (entry i j)))
          /\ forall idx', idx' < n * k ->
               fst (row_at df idx') = (Some (CInt (Z.of_nat i)), Some (CStr (str j))) ->
               idx' = idx).
Proof.
  intros Hp Hk Hfit. exists (long_table n k entry).
  split; [now apply get_predict_rank2|].
  split; [rewrite Nat.mul_comm; apply long_table_rows|].
  assert (Hdecomp : forall idx, idx < n * k ->
            exists i j, i < n /\ j < k /\ idx = j * n + i).
  { intros idx Hidx. assert (Hn : n <> 0) by (intros ->; lia).
    exists (idx mod n), (idx / n). split; [now apply Nat.mod_upper_bound|].
    split; [apply Nat.Div0.div_lt_upper_bound; lia|].
    rewrite (Nat.div_mod_eq idx n) at 1. lia. }
  split; [|split].
  - intros Hn. split; [now apply group_labels_distinct|].
    intros g. rewrite group_labels_long. split; [tauto|]. intros ?. split; [lia|assumption].
  - intros idx Hidx. destruct (Hdecomp idx Hidx) as (i & j & Hi & Hj & ->).
    exists i, j. split; [exact Hi|]. split; [exact Hj|]. now apply long_table_row.
  - intros i j Hi Hj. exists (j * n + i). split; [nia|]. split; [now apply long_table_row|].
    intros idx' Hidx' Hrow. destruct (Hdecomp idx' Hidx') as (i' & j' & Hi' & Hj' & ->).
    rewrite long_table_row in Hrow by assumption. cbn [fst] in Hrow.
    injection Hrow as Ei Ej. apply Nat2Z.inj in Ei. apply str_inj in Ej. now subst.
Qed.

Lemma C5_rank2_long_table_witness :
  exists df,
    get_predict design (fitted_adapter probs23) (Nd1 [1; 2]%float) (NewFrame guerry) [] =
      (Return df, [])
    /\ rows df (2 * 3)
    /\ length (remove_dups (group_labels df)) = 3.
Proof.
  destruct (C5_rank2_long_table design (fitted_adapter probs23) (Nd1 [1; 2]%float)
              (NewFrame guerry) [] 2 3
              (fun i j => PrimFloat.of_uint63 (Uint63.of_Z (Z.of_nat (10 * i + j)))))
    as (df & Hget & Hrows & Hgroups & _).
  - reflexivity.
  - lia.
  - vm_compute. discriminate.
  - exists df. split; [exact Hget|]. split; [exact Hrows|]. apply Hgroups. lia.
Defined.

(** C5, counterexample.  For a 0 x 2 matrix the long table has no row,
    and its [group] column takes no value at all rather than two.  For
    a 2 x 0 matrix no table is returned: there is no column to melt. *)
Lemma C5_counterexample :
  (backend_output design (fitted_adapter probs02) (Nd1 [1; 2]%float)
     (NewArray (Nd2 0 3 (fun _ _ => 0%float))) = Return (Nd2 0 2 (fun _ _ => 0%float))
   /\ exists df,
        get_predict design (fitted_adapter probs02) (Nd1 [1; 2]%float)
          (NewArray (Nd2 0 3 (fun _ _ => 0%float))) [] = (Return df, [])
        /\ rows df (0 * 2)
        /\ length (remove_dups (group_labels df)) = 0
        /\ length (remove_dups (group_labels df)) <> 2)
  /\ (backend_output design (fitted_adapter probs20) (Nd1 [1; 2]%float) (NewFrame guerry)
        = Return (Nd2 2 0 (fun _ _ => 0%float))
      /\ exists msg,
           get_predict design (fitted_adapter probs20) (Nd1 [1; 2]%float)
             (NewFrame guerry) [] = (Raise (PanicException msg), [])).
Proof.
  split.
  - split; [reflexivity|]. eexists. split; [reflexivity|].
    split; [repeat constructor|]. split; [reflexivity | vm_compute; discriminate].
  - split; [reflexivity|]. eexists. reflexivity.
Qed.

(** C10.  For an n x k matrix, a table that [get_predict] returns is
    laid out category by category: it has k * n rows, and rows [j * n]
    to [j * n + n - 1] carry the label of column j and the row numbers
    0 to n - 1 in order, with the entries of that column.  Such a table
    is returned whenever the matrix has a column and n is within the
    Int32 range of [rowid]. *)
Theorem C10_rank2_group_major
    (dmatrices : pyval -> DataFrame -> result (ndarray * ndarray))
    (self : adapter sm_results) (params : ndarray) (newdata : newdata_arg)
    (w : list string) (n k : nat) (entry : nat -> nat -> float) :
  backend_output dmatrices self params newdata = Return (Nd2 n k entry) ->
  (forall df w',
      get_predict dmatrices self params newdata w = (Return df, w') ->
      rows df (k * n)
      /\ forall j i, j < k -> i < n ->
           row_at df (j * n + i) =
             (Some (CInt (Z.of_nat i)), Some (CStr (str j)), Some (CFloat (entry i j))))
  /\ (1 <= k -> (Z.of_nat n <= int32_max + 1)%Z ->
      exists df, get_predict dmatrices self params newdata w = (Return df, w)).
Proof.
  intros Hp. split.
  - intros df w' Hget.
    destruct (get_predict_rank2_inv _ _ _ _ _ n k entry df w' Hp Hget) as (_ & _ & -> & _).
    split; [apply long_table_rows|]. intros j i. apply long_table_row.
  - intros Hk Hfit. exists (long_table n k entry). now apply get_predict_rank2.
Qed.

Lemma C10_rank2_group_major_witness :
  exists df,
    get_predict design (fitted_adapter probs23) (Nd1 [1; 2]%float) (NewFrame guerry) [] =
      (Return df, [])
    /\ fst (row_at df 0) = (Some (CInt 0), Some (CStr "0"))
    /\ fst (row_at df 1) = (Some (CInt 1), Some (CStr "0"))
    /\ fst (row_at df 2) = (Some (CInt 0), Some (CStr "1"))
    /\ fst (row_at df 5) = (Some (CInt 1), Some (CStr "2")).
Proof.
  destruct (C10_rank2_group_major design (fitted_adapter probs23) (Nd1 [1; 2]%float)
              (NewFrame guerry) [] 2 3
              (fun i j => PrimFloat.of_uint63 (Uint63.of_Z (Z.of_nat (10 * i + j)))))
    as (Hlayout & Hreturns).
  - reflexivity.
  - destruct Hreturns as (df & Hget); [lia | vm_compute; discriminate |].
    destruct (Hlayout df [] Hget) as (_ & Hrow).
    exists df. split; [exact Hget|].
    pose proof (Hrow 0 0 ltac:(lia) ltac:(lia)) as H00.
    pose proof (Hrow 0 1 ltac:(lia) ltac:(lia)) as H01.
    pose proof (Hrow 1 0 ltac:(lia) ltac:(lia)) as H10.
    pose proof (Hrow 2 1 ltac:(lia) ltac:(lia)) as H21.
    cbn [Nat.mul Nat.add] in H00, H01, H10, H21.
    rewrite H00, H01, H10, H21. repeat split.
Defined.

(** C6.  When the table has n rows (n within the Int32 range of
    [rowid]) and the backend returns a vector of n estimates,
    [get_predict] returns a table of n rows: [rowid] counts 0 to n - 1
    and [estimate] holds the vector, in its order. *)
Theorem C6_rank1_table
    (dmatrices : pyval -> DataFrame -> result (ndarray * ndarray))
    (self : adapter sm_results) (params : ndarray) (newdata : newdata_arg)
    (w : list string) (v : list float) :
  backend_output dmatrices self params newdata = Return (Nd1 v) ->
  newdata_rows newdata = Return (length v) ->
  (Z.of_nat (length v) <= int32_max + 1)%Z ->
  exists df,
    get_predict dmatrices self params newdata w = (Return df, w)
    /\ columns df = ["rowid"; "estimate"]
    /\ rows df (length v)
    /\ (get_column df "rowid" = Some (mkSeries Int32 (map CInt (range (length v)))))
    /\ (get_column df "estimate" = Some (mkSeries Float64 (map CFloat v)))
    /\ forall i x, v !! i = Some x ->
         cell_at (get_column df "rowid") i = Some (CInt (Z.of_nat i))
         /\ cell_at (get_column df "estimate") i = Some (CFloat x).
Proof.
  intros Hp Hn Hfit. exists (short_table v).
  split; [now apply get_predict_rank1|].
  split; [reflexivity|].
  split; [repeat constructor; cbn; unfold range; now rewrite ?length_map, ?length_seq|].
  split; [reflexivity|]. split; [reflexivity|].
  intros i x Hi.
  change (get_column (short_table v) "rowid") with
    (Some (mkSeries Int32 (map CInt (range (length v))))).
  change (get_column (short_table v) "estimate") with
    (Some (mkSeries Float64 (map CFloat v))).
  cbn [cell_at vals]. split.
  - apply lookup_range. now apply lookup_lt_Some in Hi.
  - change (map ?f ?l) with (f <$> l). now rewrite list_lookup_fmap, Hi.
Qed.

Lemma C6_rank1_table_witness :
  exists df,
    get_predict design (fitted_adapter (Nd1 [0.5; 0.25]%float)) (Nd1 [1; 2]%float)
      (NewFrame guerry) [] = (Return df, [])
    /\ get_column df "rowid" = Some (mkSeries Int32 [CInt 0; CInt 1])
    /\ get_column df "estimate" = Some (mkSeries Float64 [CFloat 0.5; CFloat 0.25]).
Proof.
  destruct (C6_rank1_table design (fitted_adapter (Nd1 [0.5; 0.25]%float)) (Nd1 [1; 2]%float)
              (NewFrame guerry) [] [0.5; 0.25]%float)
    as (df & Hget & _ & _ & Hrowid & Hest & _).
  - reflexivity.
  - reflexivity.
  - vm_compute. discriminate.
  - exists df. split; [exact Hget|]. split; [exact Hrowid | exact Hest].
Defined.

(** C9.  Whenever [get_predict] returns, the backend had returned a
    vector or a matrix, and the [rowid] column of the result has dtype
    Int32, every value of it within the Int32 range: it is the range
    0 to n - 1 of the table's n rows for a vector, and that range once
    per category for an n x k matrix. *)
Theorem C9_rowid_is_int32_range
    (dmatrices : pyval -> DataFrame -> result (ndarray * ndarray))
    (self : adapter sm_results) (params : ndarray) (newdata : newdata_arg)
    (w w' : list string) (df : DataFrame) :
  get_predict dmatrices self params newdata w = (Return df, w') ->
  exists p s,
    backend_output dmatrices self params newdata = Return p
    /\ get_column df "rowid" = Some s
    /\ dt s = Int32
    /\ forallb fits_int32 (vals s) = true
    /\ match p with
       | Nd1 v => newdata_rows newdata = Return (length v)
                  /\ vals s = map CInt (range (length v))
       | Nd2 n k _ => vals s = concat (repeat (map CInt (range n)) k)
       | _ => False
       end.
Proof.
  intros Hget.
  destruct (backend_output dmatrices self params newdata) as [p|e] eqn:Hp;
    [| rewrite get_predict_unfold, Hp in Hget; discriminate].
  exists p. destruct p as [x|v|n k entry|d1 d2 d3 rest];
    try (rewrite get_predict_unfold, Hp in Hget; discriminate).
  - rewrite get_predict_unfold, Hp in Hget.
    destruct (newdata_rows newdata) as [n|e]; [|discriminate].
    unfold frame_of_rowid_estimate in Hget.
    destruct (decide (n = length v)) as [->|]; [|discriminate].
    injection Hget as Hcast _.
    pose proof (cast_rowid_first_inv _ _ _ Hcast) as Hfit. cbn [vals] in Hfit.
    rewrite cast_rowid_first in Hcast by exact Hfit. injection Hcast as <-.
    eexists. split; [reflexivity|]. split; [reflexivity|]. split; [reflexivity|].
    split; [exact Hfit|]. split; reflexivity.
  - destruct (get_predict_rank2_inv _ _ _ _ _ n k entry df w' Hp Hget)
      as (_ & Hfit & -> & _).
    eexists. split; [reflexivity|]. split; [reflexivity|]. split; [reflexivity|].
    split; [|reflexivity]. cbn [vals]. apply concat_repeat_fits. now apply range_fits.
Qed.

Lemma C9_rowid_is_int32_range_witness :
  exists s,
    get_column (long_table 2 3 (fun i j => PrimFloat.of_uint63 (Uint63.of_Z (Z.of_nat (10 * i + j)))))
      "rowid" = Some s
    /\ dt s = Int32
    /\ vals s = [CInt 0; CInt 1; CInt 0; CInt 1; CInt 0; CInt 1].
Proof.
  destruct (C9_rowid_is_int32_range design (fitted_adapter probs23) (Nd1 [1; 2]%float)
              (NewFrame guerry) [] []
              (long_table 2 3 (fun i j => PrimFloat.of_uint63 (Uint63.of_Z (Z.of_nat (10 * i + j))))))
    as (p & s & Hp & Hs & Hdt & _ & Hvals).
  - reflexivity.
  - exists s. split; [exact Hs|]. split; [exact Hdt|].
    change (backend_output design (fitted_adapter probs23) (Nd1 [1; 2]%float) (NewFrame guerry))
      with (Return probs23) in Hp.
    injection Hp as <-. exact Hvals.
Defined.

(** * Further properties *)

(** ** Construction *)

(** X1.  If construction returns an adapter, then the four getters ran
    in the order coefficients, model data, response name, formula, each
    on the warning log the previous one left, and returned an array, a
    polars table and two strings; the adapter holds exactly these
    values and the model it was given. *)
Theorem X1_init_returns_validated_fields
    (model : Type) (B : ModelAbstract model) (m : model)
    (w w' : list string) (a : adapter model) :
  init m w = (Return a, w') ->
  exists w1 w2 w3,
    get_coef m w = (Return (PyArray (coef a)), w1)
    /\ get_modeldata m w1 = (Return (PyPolars (modeldata a)), w2)
    /\ get_response_name m w2 = (Return (PyStr (response_name a)), w3)
    /\ get_formula m w3 = (Return (PyStr (formula a)), w')
    /\ a_model a = m.
Proof.
  unfold init, validate_coef, validate_modeldata, validate_response_name,
    validate_formula, bind, ret, raise.
  destruct (get_coef m w) as [[c|e] w1] eqn:Ec; [|discriminate].
  destruct c; try discriminate.
  destruct (get_modeldata m w1) as [[d|e] w2] eqn:Ed; [|discriminate].
  destruct d; try discriminate.
  destruct (get_response_name m w2) as [[r|e] w3] eqn:Er; [|discriminate].
  destruct r; try discriminate.
  destruct (get_formula m w3) as [[f|e] w4] eqn:Ef; [|discriminate].
  destruct f; try discriminate.
  intros [= <- <-]. exists w1, w2, w3. cbn. rewrite Ed, Er, Ef. repeat split; reflexivity.
Qed.

Lemma X1_init_returns_validated_fields_witness :
  exists w1 w2 w3,
    get_coef (fitted (Nd1 [])) [] = (Return (PyArray (Nd1 [1; 2]%float)), w1)
    /\ get_modeldata (fitted (Nd1 [])) w1 = (Return (PyPolars guerry), w2)
    /\ get_response_name (fitted (Nd1 [])) w2 = (Return (PyStr "y"), w3)
    /\ get_formula (fitted (Nd1 [])) w3 = (Return (PyStr "y ~ x1 + x2"), [])
    /\ a_model (fitted_adapter (Nd1 [])) = fitted (Nd1 []).
Proof.
  apply (X1_init_returns_validated_fields sm_results ModelStatsmodels
           (fitted (Nd1 [])) [] [] (fitted_adapter (Nd1 []))).
  reflexivity.
Defined.

(** X2.  Validation stops at the first getter whose value has the wrong
    type.  Once the coefficients are an array: model data that is not a
    polars table raises "modeldata must be a Polars DataFrame" before
    the response name and the formula are read; with a polars table, a
    response name that is not a string raises "response_name must be a
    string" before the formula is read; with both, a formula that is
    not a string raises "formula must be a string".  The warning log is
    each time the one the failing getter left. *)
Theorem X2_init_fails_at_first_wrong_type
    (model : Type) (B : ModelAbstract model) (m : model)
    (w w1 : list string) (c : ndarray) :
  get_coef m w = (Return (PyArray c), w1) ->
  (forall d w2,
      get_modeldata m w1 = (Return d, w2) ->
      (forall df, d <> PyPolars df) ->
      init m w = (Raise (ValueError "modeldata must be a Polars DataFrame"), w2))
  /\ (forall df w2 r w3,
      get_modeldata m w1 = (Return (PyPolars df), w2) ->
      get_response_name m w2 = (Return r, w3) ->
      (forall s, r <> PyStr s) ->
      init m w = (Raise (ValueError "response_name must be a string"), w3))
  /\ (forall df w2 s w3 f w4,
      get_modeldata m w1 = (Return (PyPolars df), w2) ->
      get_response_name m w2 = (Return (PyStr s), w3) ->
      get_formula m w3 = (Return f, w4) ->
      (forall s', f <> PyStr s') ->
      init m w = (Raise (ValueError "formula must be a string"), w4)).
Proof.
  intros Hc. unfold init, validate_coef, validate_modeldata, validate_response_name,
    validate_formula, bind, ret, raise. rewrite Hc. split; [|split].
  - intros d w2 -> Hd. destruct d; try reflexivity. now destruct (Hd df).
  - intros df w2 r w3 -> -> Hr. destruct r; try reflexivity. now destruct (Hr s).
  - intros df w2 s w3 f w4 -> -> -> Hf. destruct f; try reflexivity. now destruct (Hf s0).
Qed.

Lemma X2_init_fails_at_first_wrong_type_witness :
  init (mkMethods (ret (PyArray (Nd1 [])))
          (do warn "get_modeldata ran" then ret (PyPolars guerry))
          (do warn "get_response_name ran" then ret PyNone)
          (do warn "get_formula ran" then ret (PyStr "y ~ x1"))
          (fun _ => ret PyNone)) [] =
    (Raise (ValueError "response_name must be a string"),
     ["get_modeldata ran"; "get_response_name ran"]).
Proof.
  refine (proj1 (proj2 (X2_init_fails_at_first_wrong_type methods ModelMethods
           _ [] [] (Nd1 []) _)) guerry ["get_modeldata ran"] PyNone _ _ _ _).
  - reflexivity.
  - reflexivity.
  - reflexivity.
  - intros s. discriminate.
Defined.

(** X3.  Around a statsmodels fit, construction succeeds exactly when
    the data frame of the model is a polars table, or a pandas table
    that [pl.from_pandas] converts into one, and the response name and
    the formula are strings.  The adapter then holds [np.array(params)],
    the polars table, and the two strings, and nothing is warned; the
    coefficients themselves are never a reason to fail. *)
Theorem X3_statsmodels_init_characterised
    (r : sm_results) (w w' : list string) (a : adapter sm_results) :
  init r w = (Return a, w') <->
  exists df s f,
    (data_frame (model_of r) = PyPolars df
     \/ exists pdf, data_frame (model_of r) = PyPandas pdf
                    /\ from_pandas (PyPandas pdf) = Return (PyPolars df))
    /\ endog_names (model_of r) = PyStr s
    /\ sm_formula (model_of r) = PyStr f
    /\ a = mkAdapter r (np_array (params r)) df s f
    /\ w' = w.
Proof.
  unfold init, validate_coef, validate_modeldata, validate_response_name,
    validate_formula, bind, ret, raise. cbn [get_coef get_modeldata get_response_name
    get_formula ModelStatsmodels].
  unfold sm_get_coef, sm_get_modeldata, sm_get_response_name, sm_get_formula, lift, ret.
  split.
  - destruct (data_frame (model_of r)) as [| | | | |v|pdf|df|] eqn:Ed;
      try (cbn; discriminate).
    + destruct (from_pandas (PyPandas pdf)) as [v|e] eqn:Epd; [|discriminate].
      destruct v as [| | | | | | |df|]; try discriminate.
      destruct (endog_names (model_of r)) as [| | |s| | | | |] eqn:Es; try discriminate.
      destruct (sm_formula (model_of r)) as [| | |f| | | | |] eqn:Ef; try discriminate.
      intros [= <- <-]. exists df, s, f.
      split; [right; exists pdf; now split | tauto].
    + destruct (endog_names (model_of r)) as [| | |s| | | | |] eqn:Es; try discriminate.
      destruct (sm_formula (model_of r)) as [| | |f| | | | |] eqn:Ef; try discriminate.
      intros [= <- <-]. exists df, s, f. tauto.
  - intros (df & s & f & Hd & -> & -> & -> & ->).
    destruct Hd as [-> | (pdf & -> & ->)]; reflexivity.
Qed.

(** A fit on a pandas table is converted on the way in. *)
Example statsmodels_init_from_pandas :
  exists a,
    init (mkSmResults (PyPandasSeries [1%float]) PyNone ∅
            (mkSmModel (PyPandas guerry) (PyStr "y") ["x1"] (PyStr "y ~ x1 - 1")
               (fun _ _ => Return (Nd1 [])))) [] = (Return a, [])
    /\ modeldata a = guerry.
Proof. eexists. split; reflexivity. Qed.

(** A pandas table with a repeated column name, or with a column of
    text and numbers, is not converted, and construction fails with the
    error of the conversion. *)
Example statsmodels_init_from_bad_pandas :
  let twice := [ ("x1", mkSeries Float64 [CFloat 1]); ("x1", mkSeries Float64 [CFloat 2]) ] in
  let object := [ ("x1", mkSeries Utf8 [CStr "a"; CInt 1]) ] in
  let fit data := mkSmResults (PyPandasSeries [1%float]) PyNone ∅
                    (mkSmModel (PyPandas data) (PyStr "y") ["x1"] (PyStr "y ~ x1 - 1")
                       (fun _ _ => Return (Nd1 []))) in
  (exists msg, init (fit twice) [] = (Raise (ConversionError msg), []))
  /\ (exists msg, init (fit object) [] = (Raise (ConversionError msg), [])).
Proof. split; eexists; reflexivity. Qed.

(** ** Covariance *)

(** X4.  For every backend: what [get_vcov] returns is the array
    [get_vcov_raw] produced, it has two dimensions, and both equal the
    length of the coefficients. *)
Theorem X4_get_vcov_returns_square_matrix
    (model : Type) (B : ModelAbstract model) (self : adapter model)
    (vcov : selector) (w w' : list string) (V : ndarray) :
  get_vcov self vcov w = (Return V, w') ->
  get_vcov_raw (a_model self) vcov w = (Return (PyArray V), w')
  /\ exists k, len (coef self) = Return k /\ shape V = [k; k].
Proof.
  intros Hget. split; [|exact (get_vcov_returns_square self vcov w w' V Hget)].
  revert Hget. unfold get_vcov, bind, lift, ret, raise.
  destruct (get_vcov_raw (a_model self) vcov w) as [[v|e] w1]; [|discriminate].
  destruct v; try discriminate.
  destruct (len (coef self)) as [k|e]; [|discriminate].
  destruct (decide (shape a = [k; k])); [|discriminate].
  now intros [= <- <-].
Qed.

Lemma X4_get_vcov_returns_square_matrix_witness :
  exists k, len (coef (fitted_adapter (Nd1 []))) = Return k
            /\ shape (Nd2 2 2 (fun _ _ => 0%float)) = [k; k].
Proof.
  apply (X4_get_vcov_returns_square_matrix sm_results ModelStatsmodels
           (fitted_adapter (Nd1 [])) (SelStr "HC1") [] []
           (Nd2 2 2 (fun _ _ => 0%float))).
  reflexivity.
Defined.

(** X5.  With the selector [True] a statsmodels adapter whose
    coefficients have length k returns [np.array(cov_params())] when
    that array has shape (k, k), and otherwise raises the shape error;
    either way nothing is warned. *)
Theorem X5_get_vcov_true
    (self : adapter sm_results) (w : list string) (k : nat) :
  len (coef self) = Return k ->
  let V := np_array (cov_params (a_model self)) in
  (shape V = [k; k] -> get_vcov self (SelBool true) w = (Return V, w))
  /\ (shape V <> [k; k] ->
      get_vcov self (SelBool true) w =
        (Raise (ValueError
           "vcov must be a square numpy array with dimensions equal to the length of self.coef"),
         w)).
Proof.
  intros Hk V. unfold get_vcov, bind, lift. cbn. rewrite Hk. fold V.
  split; intros HV.
  - now rewrite decide_True.
  - now rewrite decide_False.
Qed.

Lemma X5_get_vcov_true_witness :
  get_vcov (fitted_adapter (Nd1 [])) (SelBool true) [] =
    (Return (Nd2 2 2 (fun i j => if decide (i = j) then 1%float else 0%float)), []).
Proof.
  refine (proj1 (X5_get_vcov_true (fitted_adapter (Nd1 [])) [] 2 _) _); reflexivity.
Defined.

(** X6.  With a string selector [s] whose attribute [cov_s] exists, a
    statsmodels adapter whose coefficients have length k returns that
    attribute as an array when it has shape (k, k), and otherwise
    raises the shape error: so does an attribute that is no matrix at
    all, such as the bound method [cov_params] reached by the selector
    "params". *)
Theorem X6_get_vcov_named
    (self : adapter sm_results) (s : string) (A : pyval) (w : list string) (k : nat) :
  len (coef self) = Return k ->
  sm_getattr (a_model self) ("cov_" +:+ s) = Some A ->
  (shape (np_array A) = [k; k] -> get_vcov self (SelStr s) w = (Return (np_array A), w))
  /\ (shape (np_array A) <> [k; k] ->
      get_vcov self (SelStr s) w =
        (Raise (ValueError
           "vcov must be a square numpy array with dimensions equal to the length of self.coef"),
         w)).
Proof.
  intros Hk HA. unfold get_vcov, bind, lift. cbn. unfold sm_get_vcov_raw, bind, ret.
  cbn in HA |- *. rewrite HA. cbn. rewrite Hk.
  split; intros HV.
  - now rewrite decide_True.
  - now rewrite decide_False.
Qed.

Lemma X6_get_vcov_named_witness :
  get_vcov (fitted_adapter (Nd1 [])) (SelStr "HC1") [] =
    (Return (Nd2 2 2 (fun _ _ => 0%float)), [])
  /\ get_vcov (fitted_adapter (Nd1 [])) (SelStr "params") [] =
       (Raise (ValueError
          "vcov must be a square numpy array with dimensions equal to the length of self.coef"),
        []).
Proof.
  split.
  - refine (proj1 (X6_get_vcov_named (fitted_adapter (Nd1 [])) "HC1"
                     (PyArray (Nd2 2 2 (fun _ _ => 0%float))) [] 2 _ _) _); reflexivity.
  - refine (proj2 (X6_get_vcov_named (fitted_adapter (Nd1 [])) "params" PyObj [] 2 _ _) _).
    + reflexivity.
    + reflexivity.
    + discriminate.
Defined.

Lemma sm_get_vcov_raw_array_or_raise (r : sm_results) (vcov : selector) (w : list string) :
  (exists a, sm_get_vcov_raw r vcov w = (Return (PyArray a), w))
  \/ (exists msg, sm_get_vcov_raw r vcov w = (Raise (ValueError msg), w)
                  /\ msg <> "vcov must be a numpy array").
Proof.
  unfold sm_get_vcov_raw, bind, ret, raise.
  destruct vcov as [[|]|s|]; [left; eauto | left; eauto | | right].
  - destruct (sm_getattr r ("cov_" +:+ s)) as [V|].
    + left. eauto.
    + right. eexists. split; [reflexivity|]. intros E. discriminate E.
  - eexists. split; [reflexivity|]. intros E. vm_compute in E. discriminate E.
Qed.

(** X7.  On a statsmodels adapter [get_vcov] never warns, never raises
    "vcov must be a numpy array" (the raw result is always wrapped in
    [np.array]), and a selector that is neither a boolean nor a string
    always raises the error about the type of [vcov]. *)
Theorem X7_get_vcov_statsmodels_never
    (self : adapter sm_results) (vcov : selector) (w : list string) :
  snd (get_vcov self vcov w) = w
  /\ fst (get_vcov self vcov w) <> Raise (ValueError "vcov must be a numpy array")
  /\ get_vcov self SelOther w = (Raise (ValueError vcov_type_message), w).
Proof.
  assert (Hcases :
    (exists a, get_vcov self vcov w =
       (match len (coef self) with
        | Return k => if decide (shape a = [k; k]) then Return a
                      else Raise (ValueError
          "vcov must be a square numpy array with dimensions equal to the length of self.coef")
        | Raise e => Raise e
        end, w))
    \/ (exists msg, get_vcov self vcov w = (Raise (ValueError msg), w)
                    /\ msg <> "vcov must be a numpy array")).
  { unfold get_vcov, bind, lift. cbn.
    destruct (sm_get_vcov_raw_array_or_raise (a_model self) vcov w)
      as [[a ->] | (msg & -> & Hmsg)].
    - left. exists a. destruct (len (coef self)) as [k|e]; [|reflexivity].
      unfold ret, raise. now destruct (decide (shape a = [k; k])).
    - right. eauto. }
  split; [|split]; [| |reflexivity].
  - destruct Hcases as [[a ->] | (msg & -> & _)]; reflexivity.
  - destruct Hcases as [[a ->] | (msg & -> & Hmsg)]; cbn.
    + unfold len. destruct (shape (coef self)) as [|k rest]; [discriminate|].
      destruct (decide (shape a = [k; k])); discriminate.
    + congruence.
Qed.

(** ** Covariance, for every backend *)

(** X19.  Whatever the backend, a raw covariance that is no array, such
    as [None], is refused with "vcov must be a numpy array"; the length
    of the coefficients is not even looked at. *)
Theorem X19_get_vcov_refuses_non_array
    (model : Type) (B : ModelAbstract model) (self : adapter model)
    (vcov : selector) (w w' : list string) (v : pyval) :
  get_vcov_raw (a_model self) vcov w = (Return v, w') ->
  (forall a, v <> PyArray a) ->
  get_vcov self vcov w = (Raise (ValueError "vcov must be a numpy array"), w').
Proof.
  intros Hraw Hv. unfold get_vcov, bind. rewrite Hraw.
  destruct v; try reflexivity. now destruct (Hv a).
Qed.

Lemma X19_get_vcov_refuses_non_array_witness :
  get_vcov (mkAdapter listy (Nd1 [1; 2]%float) guerry "y" "y ~ x1") (SelBool false) [] =
    (Raise (ValueError "vcov must be a numpy array"), []).
Proof.
  apply (X19_get_vcov_refuses_non_array methods ModelMethods
           (mkAdapter listy (Nd1 [1; 2]%float) guerry "y" "y ~ x1") (SelBool false) [] [] PyNone).
  - reflexivity.
  - intros a. discriminate.
Defined.

(** X20.  Coefficients that are a zero-dimensional array pass
    construction but have no length: whenever the raw covariance is an
    array, [get_vcov] then fails with a [TypeError] instead of
    comparing shapes. *)
Theorem X20_get_vcov_needs_sized_coefficients
    (model : Type) (B : ModelAbstract model) (self : adapter model)
    (vcov : selector) (w w' : list string) (V : ndarray) :
  ndim (coef self) = 0 ->
  get_vcov_raw (a_model self) vcov w = (Return (PyArray V), w') ->
  exists msg, get_vcov self vcov w = (Raise (TypeError msg), w').
Proof.
  intros Hc Hraw. unfold get_vcov, bind, lift. rewrite Hraw.
  unfold len. unfold ndim in Hc. destruct (shape (coef self)); [|discriminate].
  eauto.
Qed.

Lemma X20_get_vcov_needs_sized_coefficients_witness :
  exists a,
    init (mkSmResults PyNone (PyArray (Nd2 1 1 (fun _ _ => 1%float))) ∅
            (mkSmModel (PyPolars guerry) (PyStr "y") ["x1"] (PyStr "y ~ x1")
               (fun _ _ => Return (Nd1 [])))) [] = (Return a, [])
    /\ exists msg, get_vcov a (SelBool true) [] = (Raise (TypeError msg), []).
Proof.
  eexists. split; [reflexivity|].
  eapply (X20_get_vcov_needs_sized_coefficients sm_results ModelStatsmodels).
  - reflexivity.
  - reflexivity.
Defined.

(** ** Variable names *)

(** Every call either refuses the type of [variables] or goes on to the
    check of the names of the request it carries on: the inferred list
    when [variables] is absent, the request itself otherwise. *)
Lemma get_variables_names_cases unique self v newdata w :
  get_variables_names unique self v newdata w = (Raise (ValueError variables_type_message), w)
  \/ exists res,
       res = match v with
             | VarNone => ResList (inferred_names unique (a_model self) newdata)
             | _ => normalized v
             end
       /\ get_variables_names unique self v newdata w = checked (columns newdata) res w.
Proof.
  destruct (requested_names v) as [names|] eqn:Hreq.
  - right. exists (normalized v).
    destruct (get_variables_names_requested unique self v newdata w names Hreq) as [_ ->].
    split; [|reflexivity]. destruct v; try reflexivity. discriminate.
  - destruct v; try discriminate.
    + right. eexists. split; [reflexivity|].
      destruct (get_variables_names_requested unique self
                  (VarList (map EStr (inferred_names unique (a_model self) newdata)))
                  newdata w (inferred_names unique (a_model self) newdata)) as [_ E].
      { cbn. now rewrite all_str_EStr, strs_EStr. }
      cbn [normalized] in E. rewrite strs_EStr in E. exact E.
    + left. unfold get_variables_names, bind, raise. cbn in Hreq.
      now destruct (forallb is_str l).
    + left. reflexivity.
Qed.

(** X8.  A [variables] that is none of nothing, a string, a mapping or
    a list of strings is refused with "`variables` must be None, a
    dict, string, or list of strings": so is a list with a single
    element that is no string, whatever else it holds.  Nothing is
    warned, as the names are not looked at. *)
Theorem X8_variables_of_wrong_type_refused
    (unique : list string -> list string) (self : adapter sm_results)
    (newdata : DataFrame) (w : list string) (l : list pyelem) :
  EOther ∈ l ->
  get_variables_names unique self (VarList l) newdata w =
    (Raise (ValueError variables_type_message), w)
  /\ get_variables_names unique self VarOther newdata w =
       (Raise (ValueError variables_type_message), w).
Proof.
  intros Hin. split; [|reflexivity].
  assert (Hall : forallb is_str l = false).
  { apply not_true_is_false. intros Hall. rewrite forallb_forall in Hall.
    apply list_elem_of_In, Hall in Hin. discriminate. }
  unfold get_variables_names, bind, raise. now rewrite Hall.
Qed.

Lemma X8_variables_of_wrong_type_refused_witness :
  get_variables_names unique_stable (fitted_adapter (Nd1 []))
    (VarList [EStr "x1"; EOther; EStr "zz"]) guerry [] =
    (Raise (ValueError variables_type_message), []).
Proof.
  apply (X8_variables_of_wrong_type_refused unique_stable (fitted_adapter (Nd1 []))
           guerry [] [EStr "x1"; EOther; EStr "zz"]).
  apply list_elem_of_In. right. left. reflexivity.
Defined.

(** X9.  Whatever [variables] was, a selection that is returned has at
    least one name that is a column of the table, and the call has
    added to the log exactly one warning listing the names of the
    selection that are no columns, or nothing when there are none. *)
Theorem X9_returned_selection_has_a_column
    (unique : list string -> list string) (self : adapter sm_results)
    (v : variables_arg) (newdata : DataFrame) (w w' : list string) (res : variables_res) :
  get_variables_names unique self v newdata w = (Return res, w') ->
  (exists x, x ∈ names_of res /\ x ∈ columns newdata)
  /\ w' = warned w (absent (columns newdata) (names_of res)).
Proof.
  intros Hget.
  destruct (get_variables_names_cases unique self v newdata w) as [E | (res' & _ & E)];
    rewrite E in Hget; [discriminate|].
  unfold checked in Hget.
  destruct (present (columns newdata) (names_of res')) as [|x xs] eqn:Hp; [discriminate|].
  injection Hget as <- <-. split.
  - exists x. assert (Hx : In x (present (columns newdata) (names_of res')))
      by (rewrite Hp; now left).
    unfold present in Hx. apply filter_In in Hx as [Hx Hc].
    split; [now apply list_elem_of_In | now apply isin_true].
  - unfold warned. now destruct (absent (columns newdata) (names_of res')).
Qed.

Lemma X9_returned_selection_has_a_column_witness :
  (exists x, x ∈ ["x1"; "zz"] /\ x ∈ columns guerry)
  /\ ["Variable(s) not in newdata: zz"] = warned [] (absent (columns guerry) ["x1"; "zz"]).
Proof.
  apply (X9_returned_selection_has_a_column unique_stable (fitted_adapter (Nd1 []))
           (VarList [EStr "x1"; EStr "zz"]) guerry []
           ["Variable(s) not in newdata: zz"] (ResList ["x1"; "zz"])).
  reflexivity.
Defined.

(** X10.  A single name given as a string comes back as the one-element
    list of that name, without a warning, when it is a column of the
    table.  When it is not, the call warns about it and then raises
    "There is no valid column name in `variables`.". *)
Theorem X10_single_name
    (unique : list string -> list string) (self : adapter sm_results)
    (s : string) (newdata : DataFrame) (w : list string) :
  (s ∈ columns newdata ->
   get_variables_names unique self (VarStr s) newdata w = (Return (ResList [s]), w))
  /\ (s ∉ columns newdata ->
      get_variables_names unique self (VarStr s) newdata w =
        (Raise (ValueError no_valid_column_message),
         w ++ ["Variable(s) not in newdata: " +:+ s])).
Proof.
  destruct (get_variables_names_requested unique self (VarStr s) newdata w [s] eq_refl)
    as [_ ->].
  unfold checked, present, absent. cbn [normalized names_of List.filter].
  split; intros Hs.
  - apply isin_true in Hs. now rewrite Hs.
  - apply isin_false in Hs. now rewrite Hs.
Qed.

Lemma X10_single_name_witness :
  get_variables_names unique_stable (fitted_adapter (Nd1 [])) (VarStr "x2") guerry [] =
    (Return (ResList ["x2"]), [])
  /\ get_variables_names unique_stable (fitted_adapter (Nd1 [])) (VarStr "Area_Bin") guerry [] =
       (Raise (ValueError no_valid_column_message),
        ["Variable(s) not in newdata: Area_Bin"]).
Proof.
  split.
  - apply (proj1 (X10_single_name unique_stable (fitted_adapter (Nd1 [])) "x2" guerry [])).
    vm_compute. apply list_elem_of_In. right. left. reflexivity.
  - apply (proj2 (X10_single_name unique_stable (fitted_adapter (Nd1 [])) "Area_Bin" guerry [])).
    intros Hin. apply isin_true in Hin. vm_compute in Hin. discriminate.
Defined.

(** X11.  A returned selection is accepted again as it is: passed as
    the [variables] of a further call on the same table, a returned
    list or mapping comes back unchanged, with the same warning about
    its names that are no columns. *)
Theorem X11_returned_selection_is_accepted_again
    (unique : list string -> list string) (self : adapter sm_results)
    (v : variables_arg) (newdata : DataFrame) (w w' w0 : list string) (res : variables_res) :
  get_variables_names unique self v newdata w = (Return res, w') ->
  get_variables_names unique self (as_request res) newdata w0 =
    (Return res, warned w0 (absent (columns newdata) (names_of res))).
Proof.
  intros Hget.
  destruct (get_variables_names_cases unique self v newdata w) as [E | (res' & _ & E)];
    rewrite E in Hget; [discriminate|].
  unfold checked in Hget.
  destruct (present (columns newdata) (names_of res')) as [|x xs] eqn:Hp; [discriminate|].
  injection Hget as <- _.
  assert (Hreq : requested_names (as_request res') = Some (names_of res')).
  { destruct res' as [l|d]; cbn; [now rewrite all_str_EStr, strs_EStr | reflexivity]. }
  assert (Hnorm : normalized (as_request res') = res').
  { destruct res' as [l|d]; cbn; [now rewrite strs_EStr | reflexivity]. }
  destruct (get_variables_names_requested unique self (as_request res') newdata w0 _ Hreq)
    as [_ ->].
  unfold checked, warned. rewrite Hnorm, Hp.
  now destruct (absent (columns newdata) (names_of res')).
Qed.

Lemma X11_returned_selection_is_accepted_again_witness :
  get_variables_names unique_stable (fitted_adapter (Nd1 []))
    (as_request (ResDict [("x1", PyInt 100); ("zz", PyObj)])) guerry ["earlier"] =
    (Return (ResDict [("x1", PyInt 100); ("zz", PyObj)]),
     ["earlier"; "Variable(s) not in newdata: zz"]).
Proof.
  apply (X11_returned_selection_is_accepted_again unique_stable (fitted_adapter (Nd1 []))
           (VarDict [("x1", PyInt 100); ("zz", PyObj)]) guerry []
           ["Variable(s) not in newdata: zz"] ["earlier"]
           (ResDict [("x1", PyInt 100); ("zz", PyObj)])).
  reflexivity.
Defined.

(** ** Stripping the brackets of a term name *)

Lemma match_len_cons (c : ascii) (r : string) :
  match_len (String c r) =
    if Ascii.eqb c newline then None
    else match match_len r with
         | Some m => Some (S m)
         | None => if Ascii.eqb c "]" then Some 1 else None
         end.
Proof. reflexivity. Qed.

Lemma re_sub_from_cons (c : ascii) (r : string) :
  re_sub_from 0 (String c r) =
    if Ascii.eqb c "[" then
      match match_len r with
      | Some m => re_sub_from m r
      | None => String c (re_sub_from 0 r)
      end
    else String c (re_sub_from 0 r).
Proof. reflexivity. Qed.

Lemma matchable_cons (c : ascii) (r : string) :
  matchable (String c r) =
    (Ascii.eqb c "[" && bool_decide (is_Some (match_len r))) || matchable r.
Proof. reflexivity. Qed.

Lemma occurs_false_cons (c a : ascii) (s : string) :
  occurs c (String a s) = false <-> Ascii.eqb a c = false /\ occurs c s = false.
Proof. change (occurs c (String a s)) with (Ascii.eqb a c || occurs c s). apply orb_false_iff. Qed.

Lemma match_len_no_close (s : string) : occurs "]" s = false -> match_len s = None.
Proof.
  induction s as [|a s IH]; [reflexivity|]. intros Hs.
  apply occurs_false_cons in Hs as [Ha Hs].
  rewrite match_len_cons, (IH Hs), Ha. now destruct (Ascii.eqb a newline).
Qed.

Lemma match_len_level (level tail : string) :
  occurs newline level = false -> occurs "]" tail = false ->
  match_len (level +:+ "]" +:+ tail) = Some (S (String.length level)).
Proof.
  intros Hl Ht. induction level as [|a l IH].
  - change ("" +:+ "]" +:+ tail) with (String "]" tail).
    now rewrite match_len_cons, (match_len_no_close tail Ht).
  - apply occurs_false_cons in Hl as [Ha Hl].
    change (String a l +:+ "]" +:+ tail) with (String a (l +:+ "]" +:+ tail)).
    now rewrite match_len_cons, (IH Hl), Ha.
Qed.

Lemma re_sub_from_skip (a b : string) (k : nat) :
  re_sub_from (String.length a + k) (a +:+ b) = re_sub_from k b.
Proof. induction a as [|c a IH]; [reflexivity|]. exact IH. Qed.

Lemma re_sub_from_no_open (name rest : string) :
  occurs "[" name = false ->
  re_sub_from 0 (name +:+ rest) = name +:+ re_sub_from 0 rest.
Proof.
  induction name as [|a name IH]; [reflexivity|]. intros Hn.
  apply occurs_false_cons in Hn as [Ha Hn].
  change (String a name +:+ rest) with (String a (name +:+ rest)).
  rewrite re_sub_from_cons, Ha, (IH Hn). reflexivity.
Qed.

Lemma re_sub_from_unmatchable (s : string) : matchable s = false -> re_sub_from 0 s = s.
Proof.
  induction s as [|a s IH]; [reflexivity|]. rewrite matchable_cons. intros Hs.
  apply orb_false_iff in Hs as [Ha Hs]. rewrite re_sub_from_cons, (IH Hs).
  destruct (Ascii.eqb a "[") eqn:Eb; [|reflexivity].
  rewrite andb_true_l in Ha. apply bool_decide_eq_false in Ha.
  destruct (match_len s) as [m|]; [|reflexivity]. destruct Ha. eauto.
Qed.

Lemma matchable_no_close (s : string) : occurs "]" s = false -> matchable s = false.
Proof.
  induction s as [|a s IH]; [reflexivity|]. intros Hs.
  apply occurs_false_cons in Hs as [Ha Hs].
  rewrite matchable_cons, (IH Hs), (match_len_no_close s Hs).
  rewrite orb_false_r. apply andb_false_iff. right.
  apply bool_decide_eq_false. intros [m Hm]. discriminate.
Qed.

Lemma matchable_no_open (s : string) : occurs "[" s = false -> matchable s = false.
Proof.
  induction s as [|a s IH]; [reflexivity|]. intros Hs.
  apply occurs_false_cons in Hs as [Ha Hs].
  now rewrite matchable_cons, Ha, (IH Hs).
Qed.

Lemma match_len_re_sub_none (s : string) :
  match_len s = None -> match_len (re_sub_from 0 s) = None.
Proof.
  induction s as [|a s IH]; [reflexivity|]. rewrite match_len_cons.
  destruct (Ascii.eqb a newline) eqn:En.
  - intros _. assert (Eb : Ascii.eqb a "[" = false).
    { apply Ascii.eqb_eq in En. now subst a. }
    now rewrite re_sub_from_cons, Eb, match_len_cons, En.
  - destruct (match_len s) as [m|] eqn:Em; [discriminate|].
    destruct (Ascii.eqb a "]") eqn:Ec; [discriminate|]. intros _.
    assert (E : re_sub_from 0 (String a s) = String a (re_sub_from 0 s)).
    { rewrite re_sub_from_cons, Em. now destruct (Ascii.eqb a "["). }
    now rewrite E, match_len_cons, En, (IH eq_refl), Ec.
Qed.

Lemma re_sub_from_unmatchable_result (s : string) (k : nat) :
  matchable (re_sub_from k s) = false.
Proof.
  revert k. induction s as [|a s IH]; intros k; [now destruct k|].
  destruct k as [|k]; [|apply IH]. rewrite re_sub_from_cons.
  destruct (Ascii.eqb a "[") eqn:Eb.
  - destruct (match_len s) as [m|] eqn:Em; [apply IH|].
    rewrite matchable_cons, Eb, (match_len_re_sub_none s Em), (IH 0).
    rewrite orb_false_r, andb_true_l. apply bool_decide_eq_false.
    intros [m Hm]. discriminate.
  - now rewrite matchable_cons, Eb, (IH 0).
Qed.

(** X12.  A term name made of a part without opening bracket, a
    bracketed part that stays on one line, and a rest without closing
    bracket loses exactly the bracketed part.  As the match is greedy,
    the bracketed part runs to the last closing bracket: it may itself
    hold brackets. *)
Theorem X12_re_sub_brackets_strips_bracketed_part (name level tail : string) :
  occurs "[" name = false ->
  occurs newline level = false ->
  occurs "]" tail = false ->
  re_sub_brackets (name +:+ "[" +:+ level +:+ "]" +:+ tail) = name +:+ tail.
Proof.
  intros Hn Hl Ht. unfold re_sub_brackets. rewrite (re_sub_from_no_open _ _ Hn).
  f_equal. change ("[" +:+ level +:+ "]" +:+ tail) with (String "[" (level +:+ "]" +:+ tail)).
  rewrite re_sub_from_cons. change (Ascii.eqb "[" "[") with true. cbv iota.
  rewrite (match_len_level level tail Hl Ht).
  replace (S (String.length level)) with (String.length level + 1) by lia.
  rewrite re_sub_from_skip.
  change (re_sub_from 1 ("]" +:+ tail)) with (re_sub_from 0 tail).
  apply re_sub_from_unmatchable, matchable_no_close, Ht.
Qed.

Lemma X12_re_sub_brackets_strips_bracketed_part_witness :
  re_sub_brackets "C(Region)[T.E]:Pop1831" = "C(Region):Pop1831"
  /\ re_sub_brackets "a[T.x]:b[T.y]" = "a".
Proof.
  split.
  - apply (X12_re_sub_brackets_strips_bracketed_part "C(Region)" "T.E" ":Pop1831");
      reflexivity.
  - apply (X12_re_sub_brackets_strips_bracketed_part "a" "T.x]:b[T.y" ""); reflexivity.
Defined.

(** X13.  A name in which no opening bracket is followed by a closing
    bracket on its line is left as it is: so is every name without an
    opening bracket, and every name without a closing bracket. *)
Theorem X13_re_sub_brackets_keeps_plain_names (s : string) :
  matchable s = false \/ occurs "[" s = false \/ occurs "]" s = false ->
  re_sub_brackets s = s.
Proof.
  intros [H | [H | H]]; apply re_sub_from_unmatchable.
  - exact H.
  - now apply matchable_no_open.
  - now apply matchable_no_close.
Qed.

Lemma X13_re_sub_brackets_keeps_plain_names_witness :
  re_sub_brackets "Pop1831:Desertion" = "Pop1831:Desertion".
Proof.
  apply (X13_re_sub_brackets_keeps_plain_names "Pop1831:Desertion").
  right. left. reflexivity.
Defined.

(** X14.  Stripping is done in one pass: in the result no opening
    bracket is followed by a closing bracket on its line any more, and
    stripping it again changes nothing. *)
Theorem X14_re_sub_brackets_idempotent (s : string) :
  matchable (re_sub_brackets s) = false
  /\ re_sub_brackets (re_sub_brackets s) = re_sub_brackets s.
Proof.
  assert (H : matchable (re_sub_brackets s) = false)
    by apply re_sub_from_unmatchable_result.
  split; [exact H | now apply re_sub_from_unmatchable].
Qed.

(** ** Predictions *)

(** A table that [get_predict] returns is the short table of a vector
    as long as the input has rows, or the long table of a matrix. *)
Lemma get_predict_returns_short_or_long
    (dmatrices : pyval -> DataFrame -> result (ndarray * ndarray))
    (self : adapter sm_results) (params : ndarray) (newdata : newdata_arg)
    (w w' : list string) (df : DataFrame) :
  get_predict dmatrices self params newdata w = (Return df, w') ->
  (exists v, backend_output dmatrices self params newdata = Return (Nd1 v)
             /\ newdata_rows newdata = Return (length v)
             /\ (Z.of_nat (length v) <= int32_max + 1)%Z
             /\ df = short_table v)
  \/ (exists n k entry,
        backend_output dmatrices self params newdata = Return (Nd2 n k entry)
        /\ (Z.of_nat n <= int32_max + 1)%Z
        /\ df = long_table n k entry).
Proof.
  intros Hget.
  destruct (backend_output dmatrices self params newdata) as [p|e] eqn:Hp;
    [| rewrite get_predict_unfold, Hp in Hget; discriminate].
  destruct p as [x|v|n k entry|d1 d2 d3 rest];
    try (rewrite get_predict_unfold, Hp in Hget; discriminate).
  - left. exists v. rewrite get_predict_unfold, Hp in Hget.
    destruct (newdata_rows newdata) as [n|e]; [|discriminate].
    unfold frame_of_rowid_estimate in Hget.
    destruct (decide (n = length v)) as [->|]; [|discriminate].
    injection Hget as Hcast _.
    pose proof (cast_rowid_first_inv _ _ _ Hcast) as Hfit. cbn [vals] in Hfit.
    rewrite cast_rowid_first in Hcast by exact Hfit. injection Hcast as <-.
    repeat split. now apply range_fits.
  - right. exists n, k, entry.
    destruct (get_predict_rank2_inv _ _ _ _ _ n k entry df w' Hp Hget)
      as (_ & Hfit & -> & _).
    repeat split. exact Hfit.
Qed.

(** X15.  When the backend returns an array that has neither one nor
    two dimensions, a scalar or a stack of matrices, [get_predict]
    raises "The `predict()` method must return an array with 1 or 2
    dimensions." and builds no table. *)
Theorem X15_get_predict_refuses_other_ranks
    (dmatrices : pyval -> DataFrame -> result (ndarray * ndarray))
    (self : adapter sm_results) (params : ndarray) (newdata : newdata_arg)
    (w : list string) (p : ndarray) :
  backend_output dmatrices self params newdata = Return p ->
  ndim p <> 1 -> ndim p <> 2 ->
  get_predict dmatrices self params newdata w =
    (Raise (ValueError predict_rank_message), w).
Proof.
  intros Hp H1 H2. rewrite get_predict_unfold, Hp.
  destruct p; try reflexivity; [now destruct H1 | now destruct H2].
Qed.

Lemma X15_get_predict_refuses_other_ranks_witness :
  get_predict design (fitted_adapter (NdN 2 5 3 [])) (Nd1 [1; 2]%float) (NewFrame guerry) [] =
    (Raise (ValueError predict_rank_message), [])
  /\ get_predict design (fitted_adapter (Nd0 (ScFloat 0.5))) (Nd1 [1; 2]%float)
       (NewFrame guerry) [] = (Raise (ValueError predict_rank_message), []).
Proof.
  split.
  - apply (X15_get_predict_refuses_other_ranks design (fitted_adapter (NdN 2 5 3 []))
             (Nd1 [1; 2]%float) (NewFrame guerry) [] (NdN 2 5 3 []));
      [reflexivity | discriminate | discriminate].
  - apply (X15_get_predict_refuses_other_ranks design (fitted_adapter (Nd0 (ScFloat 0.5)))
             (Nd1 [1; 2]%float) (NewFrame guerry) [] (Nd0 (ScFloat 0.5)));
      [reflexivity | discriminate | discriminate].
Defined.

(** X16.  [get_predict] never warns.  A table it returns has the
    columns [rowid], [estimate], or [rowid], [group], [estimate], in
    this order, and all its columns have the same length. *)
Theorem X16_get_predict_table_is_well_formed
    (dmatrices : pyval -> DataFrame -> result (ndarray * ndarray))
    (self : adapter sm_results) (params : ndarray) (newdata : newdata_arg)
    (w : list string) :
  snd (get_predict dmatrices self params newdata w) = w
  /\ forall df, fst (get_predict dmatrices self params newdata w) = Return df ->
       (columns df = ["rowid"; "estimate"] \/ columns df = ["rowid"; "group"; "estimate"])
       /\ exists n, rows df n.
Proof.
  split.
  - rewrite get_predict_unfold.
    destruct (backend_output dmatrices self params newdata) as [[x|v|n k entry|d1 d2 d3 rest]|e];
      reflexivity.
  - intros df Hdf.
    destruct (get_predict dmatrices self params newdata w) as [res w'] eqn:Hget.
    cbn in Hdf. subst res.
    destruct (get_predict_returns_short_or_long _ _ _ _ _ _ _ Hget)
      as [(v & _ & _ & _ & ->) | (n & k & entry & _ & _ & ->)].
    + split; [now left|]. exists (length v).
      repeat constructor; cbn; unfold range; now rewrite ?length_map, ?length_seq.
    + split; [now right|]. exists (k * n). apply long_table_rows.
Qed.

(** X17.  When the backend returns a vector whose length is not the
    number of rows of the input, no table is built: the call raises the
    shape error of the table constructor. *)
Theorem X17_get_predict_vector_of_wrong_length
    (dmatrices : pyval -> DataFrame -> result (ndarray * ndarray))
    (self : adapter sm_results) (params : ndarray) (newdata : newdata_arg)
    (w : list string) (v : list float) (n : nat) :
  backend_output dmatrices self params newdata = Return (Nd1 v) ->
  newdata_rows newdata = Return n ->
  n <> length v ->
  exists msg, get_predict dmatrices self params newdata w = (Raise (ShapeError msg), w).
Proof.
  intros Hp Hn Hne. rewrite get_predict_unfold, Hp, Hn.
  unfold frame_of_rowid_estimate. rewrite decide_False by exact Hne. eauto.
Qed.

Lemma X17_get_predict_vector_of_wrong_length_witness :
  exists msg,
    get_predict design (fitted_adapter (Nd1 [0.5]%float)) (Nd1 [1; 2]%float)
      (NewFrame guerry) [] = (Raise (ShapeError msg), []).
Proof.
  apply (X17_get_predict_vector_of_wrong_length design (fitted_adapter (Nd1 [0.5]%float))
           (Nd1 [1; 2]%float) (NewFrame guerry) [] [0.5]%float 2);
    [reflexivity | reflexivity | discriminate].
Defined.

Lemma group_labels_single n entry : group_labels (long_table n 1 entry) = repeat "0" n.
Proof.
  unfold group_labels, long_table.
  change (get_column _ "group") with
    (Some (mkSeries Utf8 (concat (map (fun j => repeat (CStr (str j)) n) (seq 0 1))))).
  cbn [vals seq map concat]. rewrite app_nil_r. change (str 0) with "0".
  induction n as [|n IH]; [reflexivity|]. cbn [repeat]. now rewrite <- IH.
Qed.

(** X18.  A matrix with a single column is treated as the vector of
    that column: [rowid] and [estimate] are the columns the vector
    would give, and the only difference is the [group] column, which
    holds "0" on every row. *)
Theorem X18_single_category_agrees_with_vector
    (dmatrices : pyval -> DataFrame -> result (ndarray * ndarray))
    (self : adapter sm_results) (params : ndarray) (newdata : newdata_arg)
    (w : list string) (n : nat) (entry : nat -> nat -> float) :
  backend_output dmatrices self params newdata = Return (Nd2 n 1 entry) ->
  (Z.of_nat n <= int32_max + 1)%Z ->
  let v := map (fun i => entry i 0) (seq 0 n) in
  exists df,
    get_predict dmatrices self params newdata w = (Return df, w)
    /\ get_column df "rowid" = get_column (short_table v) "rowid"
    /\ get_column df "estimate" = get_column (short_table v) "estimate"
    /\ group_labels df = repeat "0" n.
Proof.
  intros Hp Hfit v. exists (long_table n 1 entry).
  split; [apply get_predict_rank2; [exact Hp | lia | exact Hfit]|].
  assert (Hlen : length v = n) by (unfold v; now rewrite length_map, length_seq).
  split; [|split].
  - unfold long_table, short_table. rewrite Hlen.
    change (get_column _ "rowid") with
      (Some (mkSeries Int32 (concat (repeat (map CInt (range n)) 1)))) at 1.
    change (get_column _ "rowid") with (Some (mkSeries Int32 (map CInt (range n)))).
    cbn [repeat concat]. now rewrite app_nil_r.
  - unfold long_table, short_table.
    change (get_column _ "estimate") with
      (Some (mkSeries Float64
         (concat (map (fun j => map (fun i => CFloat (entry i j)) (seq 0 n)) (seq 0 1))))) at 1.
    change (get_column _ "estimate") with (Some (mkSeries Float64 (map CFloat v))).
    cbn [seq map concat]. rewrite app_nil_r. unfold v. now rewrite map_map.
  - apply group_labels_single.
Qed.

Lemma X18_single_category_agrees_with_vector_witness :
  exists df,
    get_predict design
      (fitted_adapter (Nd2 2 1 (fun i _ => if decide (i = 0) then 0.5%float else 0.25%float)))
      (Nd1 [1; 2]%float) (NewFrame guerry) [] = (Return df, [])
    /\ get_column df "estimate" = Some (mkSeries Float64 [CFloat 0.5; CFloat 0.25])
    /\ group_labels df = ["0"; "0"].
Proof.
  destruct (X18_single_category_agrees_with_vector design
              (fitted_adapter (Nd2 2 1 (fun i _ => if decide (i = 0) then 0.5%float else 0.25%float)))
              (Nd1 [1; 2]%float) (NewFrame guerry) [] 2
              (fun i _ => if decide (i = 0) then 0.5%float else 0.25%float))
    as (df & Hget & _ & Hest & Hgroup).
  - reflexivity.
  - vm_compute. discriminate.
  - exists df. split; [exact Hget|]. split; [exact Hest | exact Hgroup].
Defined.
